(** * train.py: training loop and hyperparameter evolution

    A shallow embedding of [train.py] (YOLOv3 custom training): the
    function [train], the helper [print_mutation] and the evolution loop
    of the [__main__] block.

    Conventions of the embedding.
    - A Python [float] is a [pyfloat]: a rational, an infinity or NaN.
      Arithmetic on finite values is exact (rounding and overflow of
      binary64 are not modelled); comparisons and NaN propagation follow
      IEEE 754 as Python and numpy expose them.
    - A Python [int] is a [Z]; loop indices produced by [enumerate] and
      [len] are [nat].
    - The external collaborators (the data loader, the network and its
      loss, [test.test], the learning-rate scheduler, numpy's random
      generator) are the fields of an [env]: arbitrary functions of the
      number of calls made so far.
    - Effects are state passing over a [world] (the files, the module
      globals, the call counters, and a trace of what happened), with
      Python exceptions and the early [return] of [train] as outcomes. *)

From Stdlib Require Import ZArith QArith Qround List String DecimalString Bool Lia Lqa.
Import ListNotations.

Local Open Scope string_scope.
Local Open Scope list_scope.
Local Open Scope Z_scope.

(** ** Python floats *)

Inductive pyfloat : Type :=
| Fin (q : Q)
| PInf
| NInf
| NaN.

Definition Qltb (a b : Q) : bool := negb (Qle_bool b a).

Definition isnan (x : pyfloat) : bool :=
  match x with NaN => true | _ => false end.

(** [a < b] *)
Definition flt (a b : pyfloat) : bool :=
  match a, b with
  | NaN, _ | _, NaN => false
  | Fin x, Fin y => Qltb x y
  | Fin _, PInf => true
  | Fin _, NInf => false
  | PInf, _ => false
  | NInf, NInf => false
  | NInf, _ => true
  end.

(** [a > b] *)
Definition fgt (a b : pyfloat) : bool := flt b a.

(** [a <= b] *)
Definition fle (a b : pyfloat) : bool :=
  match a, b with
  | NaN, _ | _, NaN => false
  | Fin x, Fin y => Qle_bool x y
  | Fin _, PInf => true
  | Fin _, NInf => false
  | PInf, PInf => true
  | PInf, _ => false
  | NInf, _ => true
  end.

(** [a == b] *)
Definition feq (a b : pyfloat) : bool :=
  match a, b with
  | Fin x, Fin y => Qeq_bool x y
  | PInf, PInf => true
  | NInf, NInf => true
  | _, _ => false
  end.

Definition fneg (a : pyfloat) : pyfloat :=
  match a with
  | Fin x => Fin (- x)
  | PInf => NInf
  | NInf => PInf
  | NaN => NaN
  end.

(** An infinity times a finite value. *)
Definition inf_times (inf : pyfloat) (x : Q) : pyfloat :=
  match (x ?= 0)%Q with
  | Gt => inf
  | Lt => fneg inf
  | Eq => NaN
  end.

(** [a * b] *)
Definition fmul (a b : pyfloat) : pyfloat :=
  match a, b with
  | NaN, _ | _, NaN => NaN
  | Fin x, Fin y => Fin (x * y)
  | Fin x, PInf | PInf, Fin x => inf_times PInf x
  | Fin x, NInf | NInf, Fin x => inf_times NInf x
  | PInf, PInf | NInf, NInf => PInf
  | PInf, NInf | NInf, PInf => NInf
  end.

(** numpy's [maximum] and [minimum] propagate NaN. *)
Definition np_maximum (a b : pyfloat) : pyfloat :=
  if isnan a then a else if isnan b then b else if flt a b then b else a.

Definition np_minimum (a b : pyfloat) : pyfloat :=
  if isnan a then a else if isnan b then b else if flt b a then b else a.

(** [np.clip(a, a_min, a_max)] is [np.minimum(a_max, np.maximum(a, a_min))]. *)
Definition np_clip (a a_min a_max : pyfloat) : pyfloat :=
  np_minimum (np_maximum a a_min) a_max.

(** ** Python values and tuples *)

Inductive pyval : Type :=
| VNum (x : pyfloat)
| VStr (s : string).

Definition pytuple : Type := list pyval.

Definition num (q : Q) : pyval := VNum (Fin q).

(** ** Exceptions and outcomes *)

Inductive exn : Type :=
| IndexError
| KeyError
| TypeError
| NameError
| ZeroDivisionError
| FileNotFoundError.

(** A dict with insertion order: [hyp[k]], [hyp[k] = v], [keys()],
    [values()]. *)
Definition dict : Type := list (string * pyfloat).

Fixpoint dict_get (d : dict) (k : string) : option pyfloat :=
  match d with
  | [] => None
  | (k', v) :: d' => if String.eqb k' k then Some v else dict_get d' k
  end.

Fixpoint dict_set (d : dict) (k : string) (v : pyfloat) : dict :=
  match d with
  | [] => [(k, v)]
  | (k', v') :: d' =>
      if String.eqb k' k then (k', v) :: d' else (k', v') :: dict_set d' k v
  end.

Definition keys (d : dict) : list string := map fst d.
Definition values (d : dict) : list pyfloat := map snd d.

(** ** Hyperparameters (the module global [hyp]) *)

Definition hyp0 : dict :=
  [ ("xy", Fin (1 # 2));
    ("wh", Fin (625 # 10000));
    ("cls", Fin (625 # 10000));
    ("conf", Fin (4 # 1));
    ("iou_t", Fin (1 # 10));
    ("lr0", Fin (1 # 10000));
    ("lrf", Fin (- 5 # 1));
    ("momentum", Fin (9 # 10));
    ("weight_decay", Fin (5 # 10000)) ].

(** The per-key mutation spreads [s] and the clipping table of the
    evolution loop. *)
Definition s_sigma : list Q :=
  [2 # 10; 2 # 10; 2 # 10; 2 # 10; 3 # 10; 2 # 10; 2 # 10; 3 # 100; 3 # 10].

Definition clip_keys : list string := ["iou_t"; "momentum"; "weight_decay"].

Definition clip_limits : list (Q * Q) :=
  [(0 # 1, 9 # 10); (75 # 100, 95 # 100); (0 # 1, 1 # 100)].

(** ** Tensors of five loss terms (xy, wh, conf, cls, total) *)

Definition tensor5 : Type := (Q * Q * Q * Q * Q)%type.

Definition tmap (g : Q -> Q) (t : tensor5) : tensor5 :=
  let '(a, b, c, d, e) := t in (g a, g b, g c, g d, g e).

Definition tmap2 (g : Q -> Q -> Q) (t u : tensor5) : tensor5 :=
  let '(a, b, c, d, e) := t in
  let '(a', b', c', d', e') := u in
  (g a a', g b b', g c c', g d d', g e e').

(** [torch.zeros(5)] *)
Definition torch_zeros5 : tensor5 := (0, 0, 0, 0, 0)%Q.

(** [(mloss * i + loss_items) / (i + 1)] *)
Definition update_mloss (mloss : tensor5) (i : nat) (loss_items : tensor5) : tensor5 :=
  tmap (fun x => x / inject_Z (Z.of_nat i + 1))%Q
       (tmap2 Qplus (tmap (fun x => x * inject_Z (Z.of_nat i))%Q mloss) loss_items).

(** ** Optimizer, checkpoints, log lines *)

Record param_group : Type := {
  lr : pyfloat;
  pg_momentum : pyfloat;
  pg_weight_decay : pyfloat
}.

(** [optim.SGD]: its parameter groups, the number of [step()] calls made
    and the number of backward passes accumulated in the gradients since
    the last [zero_grad()]. *)
Record optim : Type := {
  param_groups : list param_group;
  opt_steps : nat;
  grad_batches : nat
}.

Record checkpoint : Type := {
  ck_epoch : Z;
  ck_best_loss : pyfloat;
  ck_best_bird_map : pyfloat;
  ck_model : nat;
  ck_optimizer : option optim
}.

(** The string [s] printed for a batch: epoch, last epoch, batch, last
    batch, mean losses, number of targets (the elapsed time is left out). *)
Record summary : Type := {
  sm_epoch : Z;
  sm_last_epoch : Z;
  sm_batch : nat;
  sm_last_batch : Z;
  sm_mloss : tensor5;
  sm_nt : nat
}.

(** One line of results.txt: [s], the five formatted metrics, and the
    string [results[5]]. *)
Record results_line : Type := {
  rl_summary : summary;
  rl_metrics : list pyfloat;
  rl_extra : string
}.

(** One line of evolve.txt: the formatted results [c], then the formatted
    hyperparameter values [b]. *)
Record evolve_line : Type := {
  el_results : list pyfloat;
  el_hyp : list pyfloat
}.

Inductive event : Type :=
| EvTrainCall (h : dict)
| EvSchedulerStep (epoch : Z)
| EvPlotImages
| EvSetLR (x : pyfloat)
| EvForward
| EvLoss (loss : pyfloat)
| EvNanWarning
| EvBackward
| EvOptimizerStep
| EvZeroGrad
| EvPrintBatch (sm : summary)
| EvTest (r : pytuple)
| EvWriteResults (l : results_line)
| EvSave (path : string) (c : checkpoint)
| EvPlotResults
| EvTrainDone (n : Z)
| EvPrintMutation (l : evolve_line)
| EvFitnessImproved.

(** ** External collaborators *)

Record batch : Type := {
  b_nt : nat;                (* len(targets) *)
  b_loss : pyfloat;          (* loss *)
  b_loss_items : tensor5     (* loss_items *)
}.

Record env : Type := {
  nb : nat;                                   (* len(dataloader) *)
  next_batch : nat -> batch;                  (* the n-th batch drawn, with its loss *)
  test_test : nat -> pytuple;                 (* the n-th call of test.test *)
  scheduler_lr : Z -> param_group -> pyfloat; (* LambdaLR: lr of a group at an epoch *)
  randn : nat -> Q;                           (* the n-th draw of np.random.randn *)
  power_1_1 : Q -> Q                          (* b ** 1.1 for b >= 0 *)
}.

(** ** The world *)

Record world : Type := {
  hyp : dict;                              (* the module global hyp *)
  results_txt : list results_line;         (* results.txt, oldest line first *)
  evolve_txt : list evolve_line;           (* evolve.txt, oldest line first *)
  files : list (string * checkpoint);      (* torch.save calls, latest first *)
  trace : list event;                      (* what happened, oldest first *)
  batches_drawn : nat;
  tests_run : nat;
  randn_drawn : nat
}.

Definition set_hyp (h : dict) (w : world) : world :=
  {| hyp := h; results_txt := results_txt w; evolve_txt := evolve_txt w;
     files := files w; trace := trace w; batches_drawn := batches_drawn w;
     tests_run := tests_run w; randn_drawn := randn_drawn w |}.

Definition set_results_txt (l : list results_line) (w : world) : world :=
  {| hyp := hyp w; results_txt := l; evolve_txt := evolve_txt w;
     files := files w; trace := trace w; batches_drawn := batches_drawn w;
     tests_run := tests_run w; randn_drawn := randn_drawn w |}.

Definition set_evolve_txt (l : list evolve_line) (w : world) : world :=
  {| hyp := hyp w; results_txt := results_txt w; evolve_txt := l;
     files := files w; trace := trace w; batches_drawn := batches_drawn w;
     tests_run := tests_run w; randn_drawn := randn_drawn w |}.

Definition set_files (l : list (string * checkpoint)) (w : world) : world :=
  {| hyp := hyp w; results_txt := results_txt w; evolve_txt := evolve_txt w;
     files := l; trace := trace w; batches_drawn := batches_drawn w;
     tests_run := tests_run w; randn_drawn := randn_drawn w |}.

Definition set_trace (l : list event) (w : world) : world :=
  {| hyp := hyp w; results_txt := results_txt w; evolve_txt := evolve_txt w;
     files := files w; trace := l; batches_drawn := batches_drawn w;
     tests_run := tests_run w; randn_drawn := randn_drawn w |}.

Definition set_batches_drawn (n : nat) (w : world) : world :=
  {| hyp := hyp w; results_txt := results_txt w; evolve_txt := evolve_txt w;
     files := files w; trace := trace w; batches_drawn := n;
     tests_run := tests_run w; randn_drawn := randn_drawn w |}.

Definition set_tests_run (n : nat) (w : world) : world :=
  {| hyp := hyp w; results_txt := results_txt w; evolve_txt := evolve_txt w;
     files := files w; trace := trace w; batches_drawn := batches_drawn w;
     tests_run := n; randn_drawn := randn_drawn w |}.

Definition set_randn_drawn (n : nat) (w : world) : world :=
  {| hyp := hyp w; results_txt := results_txt w; evolve_txt := evolve_txt w;
     files := files w; trace := trace w; batches_drawn := batches_drawn w;
     tests_run := tests_run w; randn_drawn := n |}.

(** ** The monad: state, exceptions, and the early return of [train] *)

Inductive outcome (A : Type) : Type :=
| Ok (a : A)              (* ran to the end *)
| Return (r : pytuple)    (* a [return] statement inside the loops of [train] *)
| Raise (e : exn).        (* an uncaught exception *)

Arguments Ok {A} a.
Arguments Return {A} r.
Arguments Raise {A} e.

Definition M (A : Type) : Type := world -> outcome A * world.

Definition ret {A : Type} (a : A) : M A := fun w => (Ok a, w).

Definition bind {A B : Type} (m : M A) (k : A -> M B) : M B :=
  fun w =>
    match m w with
    | (Ok a, w') => k a w'
    | (Return r, w') => (Return r, w')
    | (Raise e, w') => (Raise e, w')
    end.

Definition raise {A : Type} (e : exn) : M A := fun w => (Raise e, w).

Definition return_ {A : Type} (r : pytuple) : M A := fun w => (Return r, w).

Declare Scope py_scope.
Delimit Scope py_scope with py.

Notation "x <- c1 ;; c2" := (bind c1 (fun x => c2))
  (at level 61, c1 at next level, right associativity) : py_scope.
Notation "c1 ;; c2" := (bind c1 (fun _ => c2))
  (at level 61, right associativity) : py_scope.

Local Open Scope py_scope.

Definition modify (g : world -> world) : M unit := fun w => (Ok tt, g w).

Definition gets {A : Type} (g : world -> A) : M A := fun w => (Ok (g w), w).

Definition emit (ev : event) : M unit :=
  modify (fun w => set_trace (trace w ++ [ev]) w).

Definition of_option {A : Type} (o : option A) (e : exn) : M A :=
  match o with
  | Some a => ret a
  | None => raise e
  end.

(** [for x in l: f = body(x, f)] *)
Fixpoint for_each {A S : Type} (l : list A) (body : A -> S -> M S) (f : S) : M S :=
  match l with
  | [] => ret f
  | x :: l' => f' <- body x f ;; for_each l' body f'
  end.

(** [range(a, b)] *)
Definition py_range (a b : Z) : list Z :=
  map (fun k => a + Z.of_nat k) (seq 0 (Z.to_nat (b - a))).

(** A function body: a [return] inside it is its result. *)
Definition call (body : M pytuple) : M pytuple :=
  fun w =>
    match body w with
    | (Ok r, w') => (Ok r, w')
    | (Return r, w') => (Ok r, w')
    | (Raise e, w') => (Raise e, w')
    end.

(** ** Primitive operations of Python and of the collaborators *)

(** [t[n]] on a tuple *)
Definition tuple_get (t : pytuple) (n : nat) : M pyval :=
  of_option (nth_error t n) IndexError.

(** A value used as a number: formatted with [%g], or compared with a
    float by [<] or [>]. A str raises TypeError. *)
Definition as_float (v : pyval) : M pyfloat :=
  match v with
  | VNum x => ret x
  | VStr _ => raise TypeError
  end.

(** A value concatenated to a str with [+]. *)
Definition as_str (v : pyval) : M string :=
  match v with
  | VStr x => ret x
  | VNum _ => raise TypeError
  end.

Fixpoint all_floats (t : pytuple) : option (list pyfloat) :=
  match t with
  | [] => Some []
  | VNum x :: t' =>
      match all_floats t' with
      | Some l => Some (x :: l)
      | None => None
      end
  | VStr _ :: _ => None
  end.

(** ['%11.3g' * n % t]: the tuple must hold exactly [n] numbers. *)
Definition format_g (n : nat) (t : pytuple) : M (list pyfloat) :=
  if (List.length t =? n)%nat then of_option (all_floats t) TypeError
  else raise TypeError.

(** [a % b] on ints *)
Definition py_mod (a b : Z) : M Z :=
  if b =? 0 then raise ZeroDivisionError else ret (a mod b).

(** [round(x)]: to the nearest integer, ties to the even one. *)
Definition py_round (x : Q) : Z :=
  let fl := Qfloor x in
  match (x - inject_Z fl ?= 1 # 2)%Q with
  | Lt => fl
  | Gt => fl + 1
  | Eq => if Z.even fl then fl else fl + 1
  end.

(** [n_burnin = min(round(nb / 5 + 1), 1000)] *)
Definition n_burnin (nb : nat) : Z :=
  Z.min (py_round (inject_Z (Z.of_nat nb) / 5 + 1)%Q) 1000.

(** [lr = hyp['lr0'] * (i / n_burnin) ** 4] *)
Definition burnin_lr (lr0 : pyfloat) (i : nat) (n : Z) : pyfloat :=
  fmul lr0 (Fin ((inject_Z (Z.of_nat i) / inject_Z n) ^ 4)).

Definition weights : string := "weights/".
Definition latest : string := (weights ++ "latest.pt")%string.
Definition best : string := (weights ++ "best.pt")%string.
Definition best_map : string := (weights ++ "best_bird_map.pt")%string.
Definition yolov3_spp : string := (weights ++ "yolov3-spp.pt")%string.

(** [weights + 'backup%g.pt' % epoch], for a positive epoch below 10^6
    (where [%g] prints all the digits). *)
Definition backup (epoch : Z) : string :=
  (weights ++ "backup" ++ NilEmpty.string_of_uint (Pos.to_uint (Z.to_pos epoch)) ++ ".pt")%string.

Fixpoint lookup_file (l : list (string * checkpoint)) (p : string) : option checkpoint :=
  match l with
  | [] => None
  | (p', c) :: l' => if String.eqb p' p then Some c else lookup_file l' p
  end.

Definition torch_load (p : string) : M checkpoint :=
  l <- gets files ;; of_option (lookup_file l p) FileNotFoundError.

Definition torch_save (c : checkpoint) (p : string) : M unit :=
  modify (fun w => set_files ((p, c) :: files w) w) ;;
  emit (EvSave p c).

Definition hyp_get (k : string) : M pyfloat :=
  h <- gets hyp ;; of_option (dict_get h k) KeyError.

(** ** The local variables of [train] *)

Record frame : Type := {
  optimizer : optim;
  model : nat;               (* optimizer updates the weights have received *)
  results : pytuple;
  best_loss : pyfloat;
  best_bird_map : pyfloat;
  mloss : tensor5;
  s_str : option summary     (* the variable s; None while unbound *)
}.

Definition set_optimizer (o : optim) (f : frame) : frame :=
  {| optimizer := o; model := model f; results := results f;
     best_loss := best_loss f; best_bird_map := best_bird_map f;
     mloss := mloss f; s_str := s_str f |}.

Definition set_model (n : nat) (f : frame) : frame :=
  {| optimizer := optimizer f; model := n; results := results f;
     best_loss := best_loss f; best_bird_map := best_bird_map f;
     mloss := mloss f; s_str := s_str f |}.

Definition set_results (r : pytuple) (f : frame) : frame :=
  {| optimizer := optimizer f; model := model f; results := r;
     best_loss := best_loss f; best_bird_map := best_bird_map f;
     mloss := mloss f; s_str := s_str f |}.

Definition set_best_loss (x : pyfloat) (f : frame) : frame :=
  {| optimizer := optimizer f; model := model f; results := results f;
     best_loss := x; best_bird_map := best_bird_map f;
     mloss := mloss f; s_str := s_str f |}.

Definition set_best_bird_map (x : pyfloat) (f : frame) : frame :=
  {| optimizer := optimizer f; model := model f; results := results f;
     best_loss := best_loss f; best_bird_map := x;
     mloss := mloss f; s_str := s_str f |}.

Definition set_mloss (t : tensor5) (f : frame) : frame :=
  {| optimizer := optimizer f; model := model f; results := results f;
     best_loss := best_loss f; best_bird_map := best_bird_map f;
     mloss := t; s_str := s_str f |}.

Definition set_s_str (sm : summary) (f : frame) : frame :=
  {| optimizer := optimizer f; model := model f; results := results f;
     best_loss := best_loss f; best_bird_map := best_bird_map f;
     mloss := mloss f; s_str := Some sm |}.

(** [for x in optimizer.param_groups: x['lr'] = lr] *)
Definition set_lr (x : pyfloat) (o : optim) : optim :=
  {| param_groups :=
       map (fun g => {| lr := x; pg_momentum := pg_momentum g;
                        pg_weight_decay := pg_weight_decay g |}) (param_groups o);
     opt_steps := opt_steps o;
     grad_batches := grad_batches o |}.

(** [loss.backward()]: one more batch in the accumulated gradients. *)
Definition backward (o : optim) : optim :=
  {| param_groups := param_groups o;
     opt_steps := opt_steps o;
     grad_batches := S (grad_batches o) |}.

(** [optimizer.step()] then [optimizer.zero_grad()]. *)
Definition step_zero_grad (o : optim) : optim :=
  {| param_groups := param_groups o;
     opt_steps := S (opt_steps o);
     grad_batches := O |}.

(** [train.py] command line *)
Record options : Type := {
  opt_epochs : Z;
  opt_accumulate : Z;
  opt_resume : bool;
  opt_transfer : bool;
  opt_nosave : bool;
  opt_notest : bool;
  opt_evolve : bool
}.

(** [results = (0, 0, 0, 0, 0)] *)
Definition results0 : pytuple := [num 0; num 0; num 0; num 0; num 0].

Section Train.

Variable E : env.

(** ** [train] *)

(** The next [(imgs, targets, _, _)] of the data loader, together with
    what [compute_loss(model(imgs), targets, model)] will give for it. *)
Definition draw_batch : M batch :=
  fun w => (Ok (next_batch E (batches_drawn w)),
            set_batches_drawn (S (batches_drawn w)) w).

(** [test.test(cfg, data_cfg, ...)] *)
Definition run_test : M pytuple :=
  fun w =>
    let r := test_test E (tests_run w) in
    (Ok r, set_trace (trace w ++ [EvTest r]) (set_tests_run (S (tests_run w)) w)).

(** [scheduler.step()] *)
Definition scheduler_step (epoch : Z) (o : optim) : optim :=
  {| param_groups :=
       map (fun g => {| lr := scheduler_lr E epoch g; pg_momentum := pg_momentum g;
                        pg_weight_decay := pg_weight_decay g |}) (param_groups o);
     opt_steps := opt_steps o;
     grad_batches := grad_batches o |}.

(** The body of [for i, (imgs, targets, _, _) in enumerate(dataloader)]. *)
Definition batch_body (epochs accumulate epoch : Z) (i : nat) (f : frame) : M frame :=
  b <- draw_batch ;;
  (if (epoch =? 0) && (i =? 0)%nat then emit EvPlotImages else ret tt) ;;
  (* SGD burn-in *)
  f <- (if (epoch =? 0) && (Z.of_nat i <=? n_burnin (nb E)) then
          lr0 <- hyp_get "lr0" ;;
          let x := burnin_lr lr0 i (n_burnin (nb E)) in
          emit (EvSetLR x) ;;
          ret (set_optimizer (set_lr x (optimizer f)) f)
        else ret f) ;;
  (* Run model, compute loss *)
  emit EvForward ;;
  emit (EvLoss (b_loss b)) ;;
  if isnan (b_loss b) then
    emit EvNanWarning ;;
    return_ (results f)
  else
    (* Compute gradient *)
    emit EvBackward ;;
    let f := set_optimizer (backward (optimizer f)) f in
    (* Accumulate gradient for x batches before optimizing *)
    r <- py_mod (Z.of_nat i + 1) accumulate ;;
    f <- (if (r =? 0) || (Z.of_nat i + 1 =? Z.of_nat (nb E)) then
            emit EvOptimizerStep ;;
            emit EvZeroGrad ;;
            ret (set_model (S (model f)) (set_optimizer (step_zero_grad (optimizer f)) f))
          else ret f) ;;
    (* Update running mean of tracked metrics *)
    let f := set_mloss (update_mloss (mloss f) i (b_loss_items b)) f in
    (* Print batch results *)
    let sm := {| sm_epoch := epoch; sm_last_epoch := epochs - 1;
                 sm_batch := i; sm_last_batch := Z.of_nat (nb E) - 1;
                 sm_mloss := mloss f; sm_nt := b_nt b |} in
    emit (EvPrintBatch sm) ;;
    ret (set_s_str sm f).

(** [not (opt.notest or (opt.nosave and epoch < 5)) or epoch == epochs - 1] *)
Definition test_this_epoch (opt : options) (epochs epoch : Z) : bool :=
  negb (opt_notest opt || (opt_nosave opt && (epoch <? 5))) || (epoch =? epochs - 1).

(** [with open('results.txt', 'a') as file: file.write(...)] *)
Definition write_results (f : frame) : M unit :=
  sm <- of_option (s_str f) NameError ;;
  metrics <- format_g 5 (firstn 5 (results f)) ;;
  r5 <- tuple_get (results f) 5 ;;
  extra <- as_str r5 ;;
  let line := {| rl_summary := sm; rl_metrics := metrics; rl_extra := extra |} in
  modify (fun w => set_results_txt (results_txt w ++ [line]) w) ;;
  emit (EvWriteResults line).

(** The checkpoint dict built when saving. *)
Definition make_chkpt (epoch : Z) (f : frame) : checkpoint :=
  {| ck_epoch := epoch;
     ck_best_loss := best_loss f;
     ck_best_bird_map := best_bird_map f;
     ck_model := model f;
     ck_optimizer := Some (optimizer f) |}.

(** The statements of an epoch after its batch loop and evaluation:
    results.txt, the best values, the checkpoints, the plot. *)
Definition epoch_end (opt : options) (epochs epoch : Z) (f : frame) : M frame :=
  (* Write epoch results *)
  write_results f ;;
  r6 <- tuple_get (results f) 6 ;;
  bird_map <- as_float r6 ;;
  let f := if flt bird_map (best_bird_map f) then set_best_bird_map bird_map f else f in
  (* Update best loss *)
  r4 <- tuple_get (results f) 4 ;;
  test_loss <- as_float r4 ;;
  let f := if flt test_loss (best_loss f) then set_best_loss test_loss f else f in
  (* Save training results *)
  let save := negb (opt_nosave opt) || (epoch =? epochs - 1) in
  (if save then
     let chkpt := make_chkpt epoch f in
     torch_save chkpt latest ;;
     (if feq (best_loss f) test_loss then torch_save chkpt best else ret tt) ;;
     (if feq (best_bird_map f) bird_map then torch_save chkpt best_map else ret tt) ;;
     (if (0 <? epoch) && (epoch mod 5 =? 0) then torch_save chkpt (backup epoch)
      else ret tt)
   else ret tt) ;;
  (if (epoch + 1) mod 2 =? 0 then emit EvPlotResults else ret tt) ;;
  ret f.

(** The body of [for epoch in range(start_epoch, epochs)]. *)
Definition epoch_body (opt : options) (epochs accumulate epoch : Z) (f : frame) : M frame :=
  (* Update scheduler *)
  emit (EvSchedulerStep epoch) ;;
  let f := set_optimizer (scheduler_step epoch (optimizer f)) f in
  let f := set_mloss torch_zeros5 f in
  f <- for_each (seq 0 (nb E)) (batch_body epochs accumulate epoch) f ;;
  (* Calculate mAP *)
  f <- (if test_this_epoch opt epochs epoch then
          r <- run_test ;; ret (set_results r f)
        else ret f) ;;
  epoch_end opt epochs epoch f.

(** The optimizer, [start_epoch] and the best values before the loop. *)
Definition train_init (resume transfer : bool) : M (Z * frame) :=
  lr0 <- hyp_get "lr0" ;;
  momentum <- hyp_get "momentum" ;;
  weight_decay <- hyp_get "weight_decay" ;;
  let optimizer :=
    {| param_groups := [{| lr := lr0; pg_momentum := momentum;
                           pg_weight_decay := weight_decay |}];
       opt_steps := O; grad_batches := O |} in
  let f := {| optimizer := optimizer; model := O; results := results0;
              best_loss := PInf; best_bird_map := PInf;
              mloss := torch_zeros5; s_str := None |} in
  if resume then
    chkpt <- torch_load (if transfer then yolov3_spp else latest) ;;
    let f := set_model (ck_model chkpt) f in
    let start_epoch := ck_epoch chkpt + 1 in
    match ck_optimizer chkpt with
    | Some o =>
        ret (start_epoch,
             set_best_bird_map (ck_best_bird_map chkpt)
               (set_best_loss (ck_best_loss chkpt) (set_optimizer o f)))
    | None => ret (start_epoch, f)
    end
  else ret (0, f).

Definition train (opt : options) (resume : bool) (epochs accumulate : Z)
    (transfer : bool) : M pytuple :=
  call (
    h <- gets hyp ;;
    emit (EvTrainCall h) ;;
    init <- train_init resume transfer ;;
    let '(start_epoch, f) := init in
    f <- for_each (py_range start_epoch epochs) (epoch_body opt epochs accumulate) f ;;
    (* '%g epochs completed ...' % (epoch - start_epoch, dt) *)
    (if start_epoch <? epochs then emit (EvTrainDone (epochs - 1 - start_epoch))
     else raise NameError) ;;
    ret (results f)).

End Train.

(** ** [print_mutation] *)

Definition print_mutation (hyp : dict) (results : pytuple) : M unit :=
  let b := values hyp in
  c <- format_g (List.length results) results ;;
  let line := {| el_results := c; el_hyp := b |} in
  emit (EvPrintMutation line) ;;
  (* with open('evolve.txt', 'a') as f: f.write(c + b + '\n') *)
  modify (fun w => set_evolve_txt (evolve_txt w ++ [line]) w).

Section Evolve.

Variable E : env.

(** ** The evolution loop of [__main__] *)

(** [(b) ** 1.1] on a one-element numpy array: NaN for a negative base. *)
Definition np_power_1_1 (b : Q) : pyfloat :=
  if Qltb b 0 then NaN else Fin (power_1_1 E b).

Definition draw_randn : M Q :=
  fun w => (Ok (randn E (randn_drawn w)), set_randn_drawn (S (randn_drawn w)) w).

(** The body of [for i, k in enumerate(hyp.keys())]. *)
Definition mutate_key (ik : nat * string) (_ : unit) : M unit :=
  let '(i, k) := ik in
  r <- draw_randn ;;
  si <- of_option (nth_error s_sigma i) IndexError ;;
  let x := np_power_1_1 (r * si + 1)%Q in
  v <- hyp_get k ;;
  modify (fun w => set_hyp (dict_set (hyp w) k (fmul v x)) w).

(** [enumerate(l)] *)
Definition enumerate {A : Type} (l : list A) : list (nat * A) :=
  combine (seq 0 (List.length l)) l.

(** Mutate hyperparameters *)
Definition mutate : M unit :=
  h <- gets hyp ;;
  for_each (enumerate (keys h)) mutate_key tt.

(** The body of [for k, v in zip(keys, limits)]. *)
Definition clip_key (kv : string * (Q * Q)) (_ : unit) : M unit :=
  let '(k, v) := kv in
  x <- hyp_get k ;;
  modify (fun w => set_hyp (dict_set (hyp w) k (np_clip x (Fin (fst v)) (Fin (snd v)))) w).

(** Clip to limits *)
Definition clip : M unit :=
  for_each (combine clip_keys clip_limits) clip_key tt.

(** [a > b] on values: numbers by value, strs by order, TypeError when
    mixed. *)
Definition py_gt (a b : pyval) : M bool :=
  match a, b with
  | VNum x, VNum y => ret (fgt x y)
  | VStr x, VStr y => ret (String.ltb y x)
  | _, _ => raise TypeError
  end.

Definition train_opt (opt : options) : M pytuple :=
  train E opt (opt_resume opt || opt_transfer opt) (opt_epochs opt)
        (opt_accumulate opt) (opt_transfer opt).

(** The body of [for _ in range(gen)]; [best_fitness] is threaded. *)
Definition generation (opt : options) (_ : Z) (best_fitness : pyval) : M pyval :=
  (* Mutate hyperparameters *)
  old_hyp <- gets hyp ;;
  mutate ;;
  clip ;;
  (* Determine mutation fitness *)
  results <- train_opt opt ;;
  mutation_fitness <- tuple_get results 2 ;;
  (* Write mutation results *)
  h <- gets hyp ;;
  print_mutation h results ;;
  (* Update hyperparameters if fitness improved *)
  improved <- py_gt mutation_fitness best_fitness ;;
  if improved then
    emit EvFitnessImproved ;;
    ret mutation_fitness
  else
    modify (set_hyp old_hyp) ;;
    ret best_fitness.

Definition gen : Z := 50.

(** [if opt.evolve: opt.notest = True; opt.nosave = True] *)
Definition evolve_flags (opt : options) : options :=
  if opt_evolve opt then
    {| opt_epochs := opt_epochs opt; opt_accumulate := opt_accumulate opt;
       opt_resume := opt_resume opt; opt_transfer := opt_transfer opt;
       opt_nosave := true; opt_notest := true; opt_evolve := opt_evolve opt |}
  else opt.

Definition main (opt : options) : M unit :=
  let opt := evolve_flags opt in
  results <- train_opt opt ;;
  if opt_evolve opt then
    best_fitness <- tuple_get results 2 ;;
    h <- gets hyp ;;
    print_mutation h results ;;
    _ <- for_each (py_range 0 gen) (generation opt) best_fitness ;;
    ret tt
  else ret tt.

End Evolve.

(** A world to start from: the hyperparameters of the module, empty logs,
    no checkpoint files. *)
Definition world0 : world :=
  {| hyp := hyp0; results_txt := []; evolve_txt := []; files := [];
     trace := []; batches_drawn := O; tests_run := O; randn_drawn := O |}.

(** * Specification vocabulary *)

Section BatchVocabulary.

Variable E : env.

(** The burn-in test [epoch == 0 and i <= n_burnin]. *)
Definition burnin_due (epoch : Z) (i : nat) : bool :=
  (epoch =? 0) && (Z.of_nat i <=? n_burnin (nb E)).

(** The test [(i + 1) % accumulate == 0 or (i + 1) == nb]. *)
Definition step_now (accumulate : Z) (i : nat) : bool :=
  ((Z.of_nat i + 1) mod accumulate =? 0) || (Z.of_nat i + 1 =? Z.of_nat (nb E)).

(** What a batch puts on the trace up to the loss. *)
Definition batch_prefix (epoch : Z) (i : nat) (w : world) : list event :=
  (if (epoch =? 0) && (i =? 0)%nat then [EvPlotImages] else []) ++
  (if burnin_due epoch i then
     match dict_get (hyp w) "lr0" with
     | Some lr0 => [EvSetLR (burnin_lr lr0 i (n_burnin (nb E)))]
     | None => []
     end
   else []) ++
  [EvForward; EvLoss (b_loss (next_batch E (batches_drawn w)))].

(** The summary printed after batch [i]. *)
Definition batch_summary (epochs epoch : Z) (i : nat) (f : frame) (w : world) : summary :=
  let b := next_batch E (batches_drawn w) in
  {| sm_epoch := epoch; sm_last_epoch := epochs - 1;
     sm_batch := i; sm_last_batch := Z.of_nat (nb E) - 1;
     sm_mloss := update_mloss (mloss f) i (b_loss_items b);
     sm_nt := b_nt b |}.

End BatchVocabulary.

(** [(i + 1)] is a multiple of [accumulate], or [i] is the last batch. *)
Definition step_due (accumulate : Z) (i nb : nat) : Prop :=
  (accumulate | Z.of_nat i + 1) \/ S i = nb.

(** ** The end of an epoch *)

(** The best value after seeing [x]: [if x < best: best = x]. *)
Definition running_min (best x : pyfloat) : pyfloat :=
  if flt x best then x else best.

(** [save = (not opt.nosave) or (epoch == epochs - 1)] *)
Definition save_enabled (opt : options) (epochs epoch : Z) : bool :=
  negb (opt_nosave opt) || (epoch =? epochs - 1).

(** The [torch.save] calls of an epoch, in order, for the frame [f] that
    holds the updated best values. *)
Definition save_events (opt : options) (epochs epoch : Z) (f : frame)
    (test_loss bird_map : pyfloat) : list event :=
  if save_enabled opt epochs epoch then
    [EvSave latest (make_chkpt epoch f)] ++
    (if feq (best_loss f) test_loss then [EvSave best (make_chkpt epoch f)] else []) ++
    (if feq (best_bird_map f) bird_map then [EvSave best_map (make_chkpt epoch f)]
     else []) ++
    (if (0 <? epoch) && (epoch mod 5 =? 0) then [EvSave (backup epoch) (make_chkpt epoch f)]
     else [])
  else [].

(** ** Means of loss tensors *)

(** Componentwise equality of rationals. *)
Definition teq (t u : tensor5) : Prop :=
  let '(a, b, c, d, e) := t in
  let '(a', b', c', d', e') := u in
  (a == a' /\ b == b' /\ c == c' /\ d == d' /\ e == e')%Q.




(** * Concrete collaborators and inputs, for the examples *)

(** What [test.test] returns: P, R, mAP, F1, test loss, a text, bird mAP. *)
Definition metrics7 (mAP test_loss : Q) : pytuple :=
  [num (1 # 2); num (1 # 2); num mAP; num (1 # 2); num test_loss;
   VStr "bird"; num mAP].

Definition batch_with_loss (loss : pyfloat) : batch :=
  {| b_nt := 3%nat; b_loss := loss; b_loss_items := (1, 2, 3, 4, 10)%Q |}.

(** Two batches per epoch, every loss finite, the first evaluation better
    than the later ones. *)
Definition env_finite : env :=
  {| nb := 2%nat;
     next_batch := fun _ => batch_with_loss (Fin (10 # 1));
     test_test := fun n => if (n =? 0)%nat then metrics7 (9 # 10) (1 # 1)
                           else metrics7 (1 # 10) (5 # 1);
     scheduler_lr := fun _ g => lr g;
     randn := fun _ => 0%Q;
     power_1_1 := fun q => q |}.

(** The local variables of [train] on entering the first epoch of a fresh
    run with the hyperparameters of the module. *)
Definition frame0 : frame :=
  {| optimizer :=
       {| param_groups := [{| lr := Fin (1 # 10000); pg_momentum := Fin (9 # 10);
                              pg_weight_decay := Fin (5 # 10000) |}];
          opt_steps := O; grad_batches := O |};
     model := O; results := results0; best_loss := PInf; best_bird_map := PInf;
     mloss := torch_zeros5; s_str := None |}.

Definition opt_plain (epochs : Z) : options :=
  {| opt_epochs := epochs; opt_accumulate := 1; opt_resume := false;
     opt_transfer := false; opt_nosave := false; opt_notest := false;
     opt_evolve := false |}.

(** The local variables after the batches and the evaluation of a first
    epoch: [s] is bound and [results] holds what [test.test] returned. *)
Definition frame_evaluated : frame :=
  set_s_str {| sm_epoch := 0; sm_last_epoch := 2; sm_batch := 1%nat;
               sm_last_batch := 1; sm_mloss := (1, 2, 3, 4, 10)%Q; sm_nt := 3%nat |}
    (set_results (metrics7 (9 # 10) (1 # 1)) frame0).

(** * Relations between the worlds before and after a computation *)

(** Every run of [m] takes a world to one related to it by [R], whatever
    the outcome. *)
Definition steps {A : Type} (R : world -> world -> Prop) (m : M A) : Prop :=
  forall w o w', m w = (o, w') -> R w w'.

(** The trace grows by events that satisfy [P]. *)
Definition trace_adds (P : event -> Prop) (w w' : world) : Prop :=
  exists tr, trace w' = trace w ++ tr /\ Forall P tr.

(** The module global [hyp] and evolve.txt are untouched. *)
Definition keeps_hyp (w w' : world) : Prop :=
  hyp w' = hyp w /\ evolve_txt w' = evolve_txt w /\ randn_drawn w' = randn_drawn w.




(** * The NaN detector *)






(** [m] never executes a [return] statement. *)
Definition no_return {A : Type} (m : M A) : Prop :=
  forall w r w', m w <> (Return r, w').

(** results.txt is untouched. *)
Definition keeps_results_txt (w w' : world) : Prop := results_txt w' = results_txt w.

(** Modelled on the words of the specification (not on the code): the
    evaluations gathered so far, and what it is for a results tuple to be
    the best of them, by mAP ([results[2]], higher is better) or by test
    loss ([results[4]], lower is better). *)
Definition evaluations (tr : list event) : list pytuple :=
  flat_map (fun ev => match ev with EvTest r => [r] | _ => [] end) tr.

Definition metric (r : pytuple) (n : nat) : pyfloat :=
  match nth_error r n with
  | Some (VNum x) => x
  | _ => NaN
  end.

Definition best_of_gathered (gathered : list pytuple) (r : pytuple) : Prop :=
  (forall r', In r' gathered -> fle (metric r' 2) (metric r 2) = true) \/
  (forall r', In r' gathered -> fle (metric r 4) (metric r' 4) = true).

(** Like [env_finite], but the loss of the fifth batch drawn (the first
    batch of the third epoch) is NaN. *)
Definition env_nan_third_epoch : env :=
  {| nb := 2%nat;
     next_batch := fun n => if (n =? 4)%nat then batch_with_loss NaN
                            else batch_with_loss (Fin (10 # 1));
     test_test := fun n => if (n =? 0)%nat then metrics7 (9 # 10) (1 # 1)
                           else metrics7 (1 # 10) (5 # 1);
     scheduler_lr := fun _ g => lr g;
     randn := fun _ => 0%Q;
     power_1_1 := fun q => q |}.

(** [--notest]: only the final epoch is evaluated. *)
Definition notest_options (epochs : Z) : options :=
  {| opt_epochs := epochs; opt_accumulate := 1; opt_resume := false;
     opt_transfer := false; opt_nosave := false; opt_notest := true;
     opt_evolve := false |}.

(** results.txt and the checkpoint files are untouched. *)
Definition untouched (w w' : world) : Prop :=
  results_txt w' = results_txt w /\ files w' = files w.

(** The tuple holds a str at index 5, as the write to results.txt needs. *)
Definition has_str5 (r : pytuple) : Prop :=
  exists x, nth_error r 5 = Some (VStr x).

(** The world after [print_mutation] wrote the line [l]. *)
Definition with_evolve_line (l : evolve_line) (w : world) : world :=
  set_evolve_txt (evolve_txt w ++ [l]) (set_trace (trace w ++ [EvPrintMutation l]) w).

(** A world after a mutation that turned [iou_t] into NaN and pushed
    [momentum] above its limit. *)
Definition world_mutated : world :=
  set_hyp (dict_set (dict_set hyp0 "iou_t" NaN) "momentum" (Fin (2 # 1))) world0.

(** * Facts about the embedding *)

Ltac run_in H :=
  cbv beta iota delta [bind emit modify ret gets of_option raise return_
                       draw_batch hyp_get py_mod] in H.

Ltac split_matches H :=
  repeat match type of H with
  | context [match ?x with _ => _ end] =>
      lazymatch x with
      | context [match _ with _ => _ end] => fail
      | _ => destruct x eqn:?; simpl in H; try discriminate H
      end
  end.

Ltac split_ifs H :=
  repeat match type of H with
  | context [if ?c then _ else _] => destruct c eqn:?; simpl in H
  | context [match dict_get ?a ?b with _ => _ end] =>
      destruct (dict_get a b) eqn:?; simpl in H
  end.

Section BatchFacts.

Variable E : env.

Lemma batch_body_Ok epochs accumulate epoch i f w f' w' :
  batch_body E epochs accumulate epoch i f w = (Ok f', w') ->
  let b := next_batch E (batches_drawn w) in
  accumulate <> 0 /\
  isnan (b_loss b) = false /\
  (burnin_due E epoch i = true -> exists lr0, dict_get (hyp w) "lr0" = Some lr0) /\
  w' = set_trace
         (trace w ++ batch_prefix E epoch i w ++ [EvBackward] ++
          (if step_now E accumulate i then [EvOptimizerStep; EvZeroGrad] else []) ++
          [EvPrintBatch (batch_summary E epochs epoch i f w)])
         (set_batches_drawn (S (batches_drawn w)) w) /\
  mloss f' = update_mloss (mloss f) i (b_loss_items b) /\
  results f' = results f /\
  best_loss f' = best_loss f /\
  best_bird_map f' = best_bird_map f /\
  s_str f' = Some (batch_summary E epochs epoch i f w) /\
  model f' = (if step_now E accumulate i then S (model f) else model f) /\
  opt_steps (optimizer f') =
    (if step_now E accumulate i then S (opt_steps (optimizer f))
     else opt_steps (optimizer f)) /\
  grad_batches (optimizer f') =
    (if step_now E accumulate i then O else S (grad_batches (optimizer f))) /\
  param_groups (optimizer f') =
    (if burnin_due E epoch i then
       match dict_get (hyp w) "lr0" with
       | Some lr0 => param_groups (set_lr (burnin_lr lr0 i (n_burnin (nb E))) (optimizer f))
       | None => param_groups (optimizer f)
       end
     else param_groups (optimizer f)).
Proof.
  unfold batch_body, batch_prefix, batch_summary, burnin_due, step_now.
  intros H. run_in H. simpl in H. split_ifs H; try discriminate.
  all: inversion H; subst; clear H; simpl.
  all: repeat rewrite <- app_assoc; simpl.
  all: repeat split; try reflexivity; try discriminate; eauto.
  all: try (apply Z.eqb_neq; assumption).
Qed.

Lemma batch_body_Return epochs accumulate epoch i f w r w' :
  batch_body E epochs accumulate epoch i f w = (Return r, w') ->
  isnan (b_loss (next_batch E (batches_drawn w))) = true /\
  r = results f /\
  w' = set_trace (trace w ++ batch_prefix E epoch i w ++ [EvNanWarning])
         (set_batches_drawn (S (batches_drawn w)) w).
Proof.
  unfold batch_body, batch_prefix, burnin_due.
  intros H. run_in H. simpl in H. split_ifs H; try discriminate.
  all: inversion H; subst; clear H; simpl.
  all: repeat rewrite <- app_assoc; simpl.
  all: repeat split; reflexivity.
Qed.

End BatchFacts.

(** * Gradient accumulation *)

Lemma step_now_due E accumulate i :
  accumulate <> 0 ->
  step_now E accumulate i = true <-> step_due accumulate i (nb E).
Proof.
  intros Hacc. unfold step_now, step_due.
  rewrite orb_true_iff, Z.eqb_eq, Z.eqb_eq, (Z.mod_divide _ _ Hacc).
  split; (intros [H | H]; [left; exact H | right; lia]).
Qed.

Lemma batch_prefix_no_step E epoch i w :
  ~ In EvOptimizerStep (batch_prefix E epoch i w ++ [EvBackward]) /\
  ~ In EvZeroGrad (batch_prefix E epoch i w ++ [EvBackward]).
Proof.
  unfold batch_prefix.
  destruct ((epoch =? 0) && (i =? 0)%nat); destruct (burnin_due E epoch i);
    destruct (dict_get (hyp w) "lr0"); simpl; split; intros H;
    repeat (destruct H as [H | H]; [discriminate H |]); exact H.
Qed.

(** C10. Within an epoch, a batch [i] that runs to its end is followed by
    [optimizer.step()] and, right after it, [optimizer.zero_grad()] exactly
    when [i + 1] is a multiple of [accumulate] or [i] is the last batch
    ([i + 1 = nb]). On every other batch nothing steps: the gradients hold
    one more batch, the optimizer's step count and the weights are
    unchanged. *)
Theorem optimizer_step_schedule E epochs accumulate epoch i f w f' w' :
  batch_body E epochs accumulate epoch i f w = (Ok f', w') ->
  exists pre sm,
    ~ In EvOptimizerStep pre /\ ~ In EvZeroGrad pre /\
    (step_due accumulate i (nb E) ->
       trace w' = trace w ++ pre ++ [EvOptimizerStep; EvZeroGrad; EvPrintBatch sm] /\
       opt_steps (optimizer f') = S (opt_steps (optimizer f)) /\
       model f' = S (model f) /\
       grad_batches (optimizer f') = O) /\
    (~ step_due accumulate i (nb E) ->
       trace w' = trace w ++ pre ++ [EvPrintBatch sm] /\
       opt_steps (optimizer f') = opt_steps (optimizer f) /\
       model f' = model f /\
       grad_batches (optimizer f') = S (grad_batches (optimizer f))).
Proof.
  intros H. apply batch_body_Ok in H. cbv zeta in H.
  destruct H as (Hacc & _ & _ & Hw & _ & _ & _ & _ & _ & Hm & Hs & Hg & _).
  exists (batch_prefix E epoch i w ++ [EvBackward]),
         (batch_summary E epochs epoch i f w).
  destruct (batch_prefix_no_step E epoch i w) as [Hno1 Hno2].
  split; [exact Hno1 | split; [exact Hno2 |]].
  pose proof (step_now_due E accumulate i Hacc) as Hdue.
  destruct (step_now E accumulate i); subst w'; simpl.
  - split.
    + intros _. rewrite <- app_assoc. simpl. auto.
    + intros Hn. exfalso. apply Hn, Hdue. reflexivity.
  - split.
    + intros Hd. apply Hdue in Hd. discriminate Hd.
    + intros _. rewrite <- app_assoc. simpl. auto.
Qed.

(** With [accumulate = 2] and two batches per epoch, batch 0 does not
    step and batch 1 does. *)
Lemma optimizer_step_schedule_witness :
  (exists f' w', batch_body env_finite 3 2 0 0%nat frame0 world0 = (Ok f', w') /\
                 opt_steps (optimizer f') = 0%nat /\
                 grad_batches (optimizer f') = 1%nat) /\
  (exists f' w', batch_body env_finite 3 2 0 1%nat frame0 world0 = (Ok f', w') /\
                 opt_steps (optimizer f') = 1%nat /\
                 grad_batches (optimizer f') = 0%nat).
Proof.
  split.
  - destruct (batch_body env_finite 3 2 0 0%nat frame0 world0) as [o w'] eqn:Hrun.
    assert (Ho : exists f', o = Ok f') by (vm_compute in Hrun; inversion Hrun; eauto).
    destruct Ho as [f' ->]. exists f', w'. split; [reflexivity |].
    destruct (optimizer_step_schedule _ _ _ _ _ _ _ _ _ Hrun)
      as (pre & sm & _ & _ & _ & Hskip).
    assert (Hn : ~ step_due 2 0 (nb env_finite)).
    { unfold step_due. simpl. intros [[z Hz] | Hz]; [lia | discriminate]. }
    destruct (Hskip Hn) as (_ & Hs & _ & Hg). rewrite Hs, Hg. split; reflexivity.
  - destruct (batch_body env_finite 3 2 0 1%nat frame0 world0) as [o w'] eqn:Hrun.
    assert (Ho : exists f', o = Ok f') by (vm_compute in Hrun; inversion Hrun; eauto).
    destruct Ho as [f' ->]. exists f', w'. split; [reflexivity |].
    destruct (optimizer_step_schedule _ _ _ _ _ _ _ _ _ Hrun)
      as (pre & sm & _ & _ & Hstep & _).
    assert (Hd : step_due 2 1 (nb env_finite)) by (right; reflexivity).
    destruct (Hstep Hd) as (_ & Hs & _ & Hg). rewrite Hs, Hg. split; reflexivity.
Defined.

(** * Running the monad *)

Lemma bind_Ok {A B : Type} (m : M A) (k : A -> M B) w b w' :
  bind m k w = (Ok b, w') ->
  exists a w1, m w = (Ok a, w1) /\ k a w1 = (Ok b, w').
Proof.
  unfold bind. destruct (m w) as [[a | r | e] w1]; intros H; try discriminate H.
  exists a, w1. split; [reflexivity | exact H].
Qed.

Lemma bind_Return {A B : Type} (m : M A) (k : A -> M B) w r w' :
  bind m k w = (Return r, w') ->
  m w = (Return r, w') \/
  exists a w1, m w = (Ok a, w1) /\ k a w1 = (Return r, w').
Proof.
  unfold bind. destruct (m w) as [[a | r0 | e] w1]; intros H; try discriminate H.
  - right. exists a, w1. split; [reflexivity | exact H].
  - left. inversion H. reflexivity.
Qed.

Lemma bind_Raise {A B : Type} (m : M A) (k : A -> M B) w e w' :
  bind m k w = (Raise e, w') ->
  m w = (Raise e, w') \/
  exists a w1, m w = (Ok a, w1) /\ k a w1 = (Raise e, w').
Proof.
  unfold bind. destruct (m w) as [[a | r | e0] w1]; intros H; try discriminate H.
  - right. exists a, w1. split; [reflexivity | exact H].
  - left. inversion H. reflexivity.
Qed.

Lemma for_each_cons_Ok {A S : Type} (x : A) l (body : A -> S -> M S) f w f' w' :
  for_each (x :: l) body f w = (Ok f', w') ->
  exists f1 w1, body x f w = (Ok f1, w1) /\ for_each l body f1 w1 = (Ok f', w').
Proof. simpl. apply bind_Ok. Qed.

(** * The running mean of the losses *)

Lemma teq_refl t : teq t t.
Proof. destruct t as [[[[a b] c] d] e]. simpl. repeat split; reflexivity. Qed.



(** * The end of an epoch *)

Lemma of_option_Ok {A : Type} (o : option A) e w a w' :
  of_option o e w = (Ok a, w') -> o = Some a /\ w' = w.
Proof.
  destruct o; simpl; unfold ret, raise; intros H; inversion H; auto.
Qed.

Lemma as_float_Ok v w x w' :
  as_float v w = (Ok x, w') -> v = VNum x /\ w' = w.
Proof.
  destruct v; simpl; unfold ret, raise; intros H; inversion H; auto.
Qed.

Lemma as_str_Ok v w x w' :
  as_str v w = (Ok x, w') -> v = VStr x /\ w' = w.
Proof.
  destruct v; simpl; unfold ret, raise; intros H; inversion H; auto.
Qed.

Lemma format_g_Ok n t w l w' :
  format_g n t w = (Ok l, w') ->
  List.length t = n /\ all_floats t = Some l /\ w' = w.
Proof.
  unfold format_g. destruct (List.length t =? n)%nat eqn:Hlen.
  - intros H. apply of_option_Ok in H. destruct H as [H1 H2].
    apply Nat.eqb_eq in Hlen. auto.
  - unfold raise. intros H. discriminate H.
Qed.

Tactic Notation "mstep" hyp(H) "as" ident(a) ident(w1) ident(Hs) :=
  apply bind_Ok in H; destruct H as (a & w1 & Hs & H).

Lemma write_results_Ok f w u w' :
  write_results f w = (Ok u, w') ->
  exists sm metrics extra,
    s_str f = Some sm /\
    all_floats (firstn 5 (results f)) = Some metrics /\
    nth_error (results f) 5 = Some (VStr extra) /\
    w' = set_trace
           (trace w ++ [EvWriteResults {| rl_summary := sm; rl_metrics := metrics;
                                          rl_extra := extra |}])
           (set_results_txt
              (results_txt w ++ [{| rl_summary := sm; rl_metrics := metrics;
                                    rl_extra := extra |}]) w).
Proof.
  unfold write_results, tuple_get. intros H.
  mstep H as sm w_sm Hs. apply of_option_Ok in Hs. destruct Hs as [Hsm ->].
  mstep H as metrics w_metrics Hs. apply format_g_Ok in Hs. destruct Hs as (_ & Hfmt & ->).
  mstep H as r5 w_r5 Hs. apply of_option_Ok in Hs. destruct Hs as [H5 ->].
  mstep H as extra w_extra Hs. apply as_str_Ok in Hs. destruct Hs as [-> ->].
  exists sm, metrics, extra. repeat split; try assumption.
  cbv beta iota delta [bind emit modify] in H. inversion H. reflexivity.
Qed.

Lemma epoch_end_Ok opt epochs epoch f w f' w' :
  epoch_end opt epochs epoch f w = (Ok f', w') ->
  exists sm metrics extra bird_map test_loss,
    s_str f = Some sm /\
    all_floats (firstn 5 (results f)) = Some metrics /\
    nth_error (results f) 5 = Some (VStr extra) /\
    nth_error (results f) 6 = Some (VNum bird_map) /\
    nth_error (results f) 4 = Some (VNum test_loss) /\
    best_loss f' = running_min (best_loss f) test_loss /\
    best_bird_map f' = running_min (best_bird_map f) bird_map /\
    mloss f' = mloss f /\ results f' = results f /\ optimizer f' = optimizer f /\
    model f' = model f /\ s_str f' = s_str f /\
    let line := {| rl_summary := sm; rl_metrics := metrics; rl_extra := extra |} in
    results_txt w' = results_txt w ++ [line] /\
    trace w' = trace w ++ [EvWriteResults line] ++
               save_events opt epochs epoch f' test_loss bird_map ++
               (if (epoch + 1) mod 2 =? 0 then [EvPlotResults] else []) /\
    hyp w' = hyp w /\ evolve_txt w' = evolve_txt w /\
    batches_drawn w' = batches_drawn w /\ tests_run w' = tests_run w.
Proof.
  unfold epoch_end, tuple_get. intros H.
  mstep H as u w_u Hs. apply write_results_Ok in Hs.
  destruct Hs as (sm & metrics & extra & Hsm & Hfmt & H5 & ->).
  mstep H as r6 w_r6 Hs. apply of_option_Ok in Hs. destruct Hs as [H6 ->].
  mstep H as a1 w_a1 Hs. apply as_float_Ok in Hs. destruct Hs as [-> ->].
  mstep H as r4 w_r4 Hs. apply of_option_Ok in Hs. destruct Hs as [H4 ->].
  mstep H as a3 w_a3 Hs. apply as_float_Ok in Hs. destruct Hs as [-> ->].
  exists sm, metrics, extra, a1, a3.
  unfold save_events, save_enabled, running_min, torch_save in *.
  cbv beta iota delta [bind emit modify ret] in H.
  destruct (flt a1 (best_bird_map f)) eqn:Hbm; simpl in H4, H;
    destruct (flt a3 (best_loss f)) eqn:Hbl; simpl in H;
    destruct (negb (opt_nosave opt) || (epoch =? epochs - 1));
    simpl in H;
    repeat match type of H with
    | context [if ?c then _ else _] => destruct c eqn:?; simpl in H
    end;
    inversion H; subst; clear H; simpl;
    repeat rewrite <- app_assoc; simpl;
    repeat match goal with
    | |- context [if ?c then _ else _] => destruct c eqn:?; try discriminate
    end;
    repeat split; try assumption; try reflexivity; try congruence.
Qed.

(** * The mean-loss accumulator over an epoch *)







(** * Selection of the best checkpoints *)

Lemma checkpoint_names_distinct (epoch : Z) :
  best <> best_map /\ latest <> best /\ latest <> best_map /\
  backup epoch <> best /\ backup epoch <> best_map.
Proof.
  unfold best, best_map, latest, backup, weights. simpl.
  repeat split; intros H; discriminate H.
Qed.

Lemma save_events_best opt epochs epoch f test_loss bird_map :
  save_enabled opt epochs epoch = true ->
  (exists c, In (EvSave best c) (save_events opt epochs epoch f test_loss bird_map))
  <-> feq (best_loss f) test_loss = true.
Proof.
  intros Hsave. unfold save_events. rewrite Hsave.
  destruct (checkpoint_names_distinct epoch) as (Hbm & Hlb & _ & Hbb & _).
  destruct (feq (best_loss f) test_loss);
    destruct (feq (best_bird_map f) bird_map);
    destruct ((0 <? epoch) && (epoch mod 5 =? 0)); simpl;
    (split;
     [ intros [c Hin];
       repeat (destruct Hin as [Hin | Hin];
               [inversion Hin; subst; try congruence; try reflexivity |]);
       try contradiction; try reflexivity
     | intros Heq; try discriminate Heq; eexists; eauto ]).
Qed.

Lemma save_events_best_map opt epochs epoch f test_loss bird_map :
  save_enabled opt epochs epoch = true ->
  (exists c, In (EvSave best_map c) (save_events opt epochs epoch f test_loss bird_map))
  <-> feq (best_bird_map f) bird_map = true.
Proof.
  intros Hsave. unfold save_events. rewrite Hsave.
  destruct (checkpoint_names_distinct epoch) as (Hbm & _ & Hlb & _ & Hbb).
  destruct (feq (best_loss f) test_loss);
    destruct (feq (best_bird_map f) bird_map);
    destruct ((0 <? epoch) && (epoch mod 5 =? 0)); simpl;
    (split;
     [ intros [c Hin];
       repeat (destruct Hin as [Hin | Hin];
               [inversion Hin; subst; try congruence; try reflexivity |]);
       try contradiction; try reflexivity
     | intros Heq; try discriminate Heq; eexists; eauto ]).
Qed.

Lemma Qltb_lt (a b : Q) : Qltb a b = true <-> (a < b)%Q.
Proof.
  unfold Qltb. rewrite negb_true_iff. split.
  - intros H. apply Qnot_le_lt. intros Hle. apply Qle_bool_iff in Hle. congruence.
  - intros H. destruct (Qle_bool b a) eqn:Hle; [| reflexivity].
    apply Qle_bool_iff in Hle. exfalso. apply (Qlt_not_le _ _ H Hle).
Qed.

Lemma Qltb_ge (a b : Q) : Qltb a b = false <-> (b <= a)%Q.
Proof.
  unfold Qltb. rewrite negb_false_iff. apply Qle_bool_iff.
Qed.

(** On numbers, [running_min] is the smaller of the two. *)
Lemma running_min_is_min (best x : pyfloat) :
  isnan best = false -> isnan x = false ->
  fle (running_min best x) best = true /\ fle (running_min best x) x = true /\
  (running_min best x = best \/ running_min best x = x).
Proof.
  unfold running_min.
  destruct best as [b | | |], x as [y | | |]; simpl; intros Hb Hx;
    try discriminate; auto using Qle_bool_iff.
  - destruct (Qltb y b) eqn:Hlt; simpl; repeat split; auto;
      apply Qle_bool_iff.
    + apply Qlt_le_weak, Qltb_lt, Hlt.
    + apply Qle_refl.
    + apply Qle_refl.
    + apply Qltb_ge, Hlt.
  - repeat split; auto. apply Qle_bool_iff, Qle_refl.
  - repeat split; auto. apply Qle_bool_iff, Qle_refl.
Qed.

(** C8. In an epoch that saves, best.pt is written exactly when the
    epoch's test loss ([results[4]]) equals the updated running minimum of
    the test losses, and best_bird_map.pt exactly when the epoch's
    [bird_map] ([results[6]]) equals the updated running minimum of the
    [bird_map] values; the two files are different files, each with its own
    criterion. *)
Theorem best_checkpoints_by_running_minimum opt epochs epoch f w f' w' :
  epoch_end opt epochs epoch f w = (Ok f', w') ->
  save_enabled opt epochs epoch = true ->
  exists test_loss bird_map new,
    nth_error (results f) 4 = Some (VNum test_loss) /\
    nth_error (results f) 6 = Some (VNum bird_map) /\
    trace w' = trace w ++ new /\
    best_loss f' = running_min (best_loss f) test_loss /\
    best_bird_map f' = running_min (best_bird_map f) bird_map /\
    ((exists c, In (EvSave best c) new) <-> feq (best_loss f') test_loss = true) /\
    ((exists c, In (EvSave best_map c) new)
     <-> feq (best_bird_map f') bird_map = true) /\
    best <> best_map.
Proof.
  intros H Hsave. apply epoch_end_Ok in H.
  destruct H as (sm & metrics & extra & bm & tl & _ & _ & _ & H6 & H4 & Hbl & Hbm
                 & _ & _ & _ & _ & _ & H).
  cbv zeta in H. destruct H as (_ & Htr & _).
  exists tl, bm. eexists. split; [exact H4 |]. split; [exact H6 |].
  split; [exact Htr |]. split; [exact Hbl |]. split; [exact Hbm |].
  split; [| split].
  - rewrite <- (save_events_best opt epochs epoch f' tl bm Hsave).
    split; intros [c Hin]; exists c.
    + simpl in Hin. destruct Hin as [Hin | Hin]; [discriminate Hin |].
      apply in_app_or in Hin. destruct Hin as [Hin | Hin]; [exact Hin |].
      destruct ((epoch + 1) mod 2 =? 0); simpl in Hin;
        [destruct Hin as [Hin | Hin]; [discriminate Hin | contradiction] | contradiction].
    + simpl. right. apply in_or_app. left. exact Hin.
  - rewrite <- (save_events_best_map opt epochs epoch f' tl bm Hsave).
    split; intros [c Hin]; exists c.
    + simpl in Hin. destruct Hin as [Hin | Hin]; [discriminate Hin |].
      apply in_app_or in Hin. destruct Hin as [Hin | Hin]; [exact Hin |].
      destruct ((epoch + 1) mod 2 =? 0); simpl in Hin;
        [destruct Hin as [Hin | Hin]; [discriminate Hin | contradiction] | contradiction].
    + simpl. right. apply in_or_app. left. exact Hin.
  - apply (checkpoint_names_distinct epoch).
Qed.

(** A first epoch with test loss 1 and bird mAP 0.9, both below the
    initial infinity: both files are written. *)
Lemma best_checkpoints_by_running_minimum_witness :
  exists f' w',
    epoch_end (opt_plain 3) 3 0 frame_evaluated world0 = (Ok f', w') /\
    save_enabled (opt_plain 3) 3 0 = true /\
    (exists c, In (EvSave best c) (trace w')) /\
    (exists c, In (EvSave best_map c) (trace w')).
Proof.
  destruct (epoch_end (opt_plain 3) 3 0 frame_evaluated world0) as [o w'] eqn:Hrun.
  assert (Ho : exists f', o = Ok f') by (vm_compute in Hrun; inversion Hrun; eauto).
  destruct Ho as [f' ->]. exists f', w'.
  split; [reflexivity |]. split; [reflexivity |].
  destruct (best_checkpoints_by_running_minimum _ _ _ _ _ _ _ Hrun eq_refl)
    as (tl & bm & new & H4 & H6 & Htr & Hbl & Hbm & Hbest & Hmap & _).
  vm_compute in H4. inversion H4; subst tl.
  vm_compute in H6. inversion H6; subst bm.
  rewrite Htr. simpl trace.
  split.
  - destruct (proj2 Hbest) as [c Hc]; [rewrite Hbl; reflexivity |]. exists c. exact Hc.
  - destruct (proj2 Hmap) as [c Hc]; [rewrite Hbm; reflexivity |]. exists c. exact Hc.
Defined.

(** * The burn-in ramp of the learning rate *)









(** * Relations preserved by every run *)

Section Steps.

Variable R : world -> world -> Prop.
Hypothesis R_refl : forall w, R w w.
Hypothesis R_trans : forall w1 w2 w3, R w1 w2 -> R w2 w3 -> R w1 w3.

Lemma steps_ret {A : Type} (a : A) : steps R (ret a).
Proof. intros w o w' H. inversion H. apply R_refl. Qed.

Lemma steps_raise {A : Type} (e : exn) : steps R (@raise A e).
Proof. intros w o w' H. inversion H. apply R_refl. Qed.

Lemma steps_return_ {A : Type} (r : pytuple) : steps R (@return_ A r).
Proof. intros w o w' H. inversion H. apply R_refl. Qed.

Lemma steps_gets {A : Type} (g : world -> A) : steps R (gets g).
Proof. intros w o w' H. inversion H. apply R_refl. Qed.

Lemma steps_of_option {A : Type} (o : option A) (e : exn) : steps R (of_option o e).
Proof. destruct o; [apply steps_ret | apply steps_raise]. Qed.

Lemma steps_modify (g : world -> world) :
  (forall w, R w (g w)) -> steps R (modify g).
Proof. intros Hg w o w' H. inversion H. apply Hg. Qed.

Lemma steps_bind {A B : Type} (m : M A) (k : A -> M B) :
  steps R m -> (forall a, steps R (k a)) -> steps R (bind m k).
Proof.
  intros Hm Hk w o w' H. unfold bind in H.
  destruct (m w) as [[a | r | e] w1] eqn:Hmw.
  - apply (R_trans _ w1); [apply (Hm _ _ _ Hmw) | apply (Hk a _ _ _ H)].
  - inversion H; subst. apply (Hm _ _ _ Hmw).
  - inversion H; subst. apply (Hm _ _ _ Hmw).
Qed.

Lemma steps_for_each {A S : Type} (l : list A) (body : A -> S -> M S) :
  (forall x f, In x l -> steps R (body x f)) ->
  forall f, steps R (for_each l body f).
Proof.
  induction l as [| x l IH]; intros Hbody f; simpl.
  - apply steps_ret.
  - apply steps_bind.
    + apply Hbody. left. reflexivity.
    + intros f1. apply IH. intros y g Hy. apply Hbody. right. exact Hy.
Qed.

Lemma steps_call (body : M pytuple) : steps R body -> steps R (call body).
Proof.
  intros Hb w o w' H. unfold call in H.
  destruct (body w) as [[a | r | e] w1] eqn:Hbw; inversion H; subst;
    apply (Hb _ _ _ Hbw).
Qed.

Lemma steps_as_float v : steps R (as_float v).
Proof. destruct v; [apply steps_ret | apply steps_raise]. Qed.

Lemma steps_as_str v : steps R (as_str v).
Proof. destruct v; [apply steps_raise | apply steps_ret]. Qed.

Lemma steps_format_g n t : steps R (format_g n t).
Proof.
  unfold format_g. destruct (List.length t =? n)%nat;
    [apply steps_of_option | apply steps_raise].
Qed.

Lemma steps_tuple_get t n : steps R (tuple_get t n).
Proof. apply steps_of_option. Qed.

Lemma steps_hyp_get k : steps R (hyp_get k).
Proof.
  unfold hyp_get. apply steps_bind; [apply steps_gets |].
  intros h. apply steps_of_option.
Qed.

Lemma steps_py_mod a b : steps R (py_mod a b).
Proof. unfold py_mod. destruct (b =? 0); [apply steps_raise | apply steps_ret]. Qed.

Lemma steps_torch_load p : steps R (torch_load p).
Proof.
  unfold torch_load. apply steps_bind; [apply steps_gets |].
  intros l. apply steps_of_option.
Qed.

End Steps.



Lemma trace_adds_weaken (P Q : event -> Prop) w w' :
  (forall ev, P ev -> Q ev) -> trace_adds P w w' -> trace_adds Q w w'.
Proof.
  intros HPQ (tr & Htr & F). exists tr. split; [exact Htr |].
  eapply Forall_impl; [exact HPQ | exact F].
Qed.


Lemma keeps_hyp_refl w : keeps_hyp w w.
Proof. repeat split. Qed.

Lemma keeps_hyp_trans w1 w2 w3 : keeps_hyp w1 w2 -> keeps_hyp w2 w3 -> keeps_hyp w1 w3.
Proof.
  intros (H1 & H2 & H3) (H4 & H5 & H6). repeat split; congruence.
Qed.

Lemma steps_emit_hyp ev : steps keeps_hyp (emit ev).
Proof. intros w o w' H. inversion H; subst. repeat split. Qed.

(** * [train] leaves the hyperparameters and evolve.txt alone *)

Ltac steps_with refl trans leaf :=
  repeat first
    [ apply (steps_bind _ trans); [| intros ?]
    | apply (steps_ret _ refl)
    | apply (steps_raise _ refl)
    | apply (steps_return_ _ refl)
    | apply (steps_gets _ refl)
    | apply (steps_of_option _ refl)
    | apply (steps_as_float _ refl)
    | apply (steps_as_str _ refl)
    | apply (steps_format_g _ refl)
    | apply (steps_tuple_get _ refl)
    | apply (steps_hyp_get _ refl trans)
    | apply (steps_py_mod _ refl)
    | apply (steps_torch_load _ refl trans)
    | leaf
    | match goal with
      | |- steps _ (if ?c then _ else _) => destruct c
      | |- steps _ (match ?x with _ => _ end) => destruct x
      | |- steps _ (let '(_, _) := ?x in _) => destruct x
      end
    | progress cbv zeta ].

Lemma draw_batch_keeps_hyp E : steps keeps_hyp (draw_batch E).
Proof. intros w o w' H. inversion H; subst. repeat split. Qed.

Lemma run_test_keeps_hyp E : steps keeps_hyp (run_test E).
Proof. intros w o w' H. inversion H; subst. repeat split. Qed.

Lemma torch_save_keeps_hyp c p : steps keeps_hyp (torch_save c p).
Proof.
  unfold torch_save. apply (steps_bind _ keeps_hyp_trans).
  - apply steps_modify. intros w. repeat split.
  - intros _. apply steps_emit_hyp.
Qed.

Ltac keeps_hyp_leaf :=
  first [ apply steps_emit_hyp | apply draw_batch_keeps_hyp | apply run_test_keeps_hyp
        | apply torch_save_keeps_hyp
        | apply steps_modify; intros ?; repeat split ].

Ltac keeps_hyp_tac := steps_with keeps_hyp_refl keeps_hyp_trans keeps_hyp_leaf.

Lemma batch_body_keeps_hyp E epochs accumulate epoch i f :
  steps keeps_hyp (batch_body E epochs accumulate epoch i f).
Proof. unfold batch_body. keeps_hyp_tac. Qed.

Lemma epoch_end_keeps_hyp opt epochs epoch f :
  steps keeps_hyp (epoch_end opt epochs epoch f).
Proof. unfold epoch_end, write_results. keeps_hyp_tac. Qed.

Lemma epoch_body_keeps_hyp E opt epochs accumulate epoch f :
  steps keeps_hyp (epoch_body E opt epochs accumulate epoch f).
Proof.
  unfold epoch_body. keeps_hyp_tac.
  apply (steps_for_each _ keeps_hyp_refl keeps_hyp_trans).
  intros x g _. apply batch_body_keeps_hyp.
Qed.

Lemma train_init_keeps_hyp resume transfer : steps keeps_hyp (train_init resume transfer).
Proof. unfold train_init. keeps_hyp_tac. Qed.

Lemma train_keeps_hyp E opt resume epochs accumulate transfer :
  steps keeps_hyp (train E opt resume epochs accumulate transfer).
Proof.
  unfold train. apply steps_call.
  apply (steps_bind _ keeps_hyp_trans); [apply steps_gets, keeps_hyp_refl | intros h].
  apply (steps_bind _ keeps_hyp_trans); [apply steps_emit_hyp | intros _].
  apply (steps_bind _ keeps_hyp_trans); [apply train_init_keeps_hyp | intros [start f]].
  keeps_hyp_tac.
  apply (steps_for_each _ keeps_hyp_refl keeps_hyp_trans).
  intros x g _. apply epoch_body_keeps_hyp.
Qed.

(** * Epochs after a resume *)















Lemma bind_gets {A B : Type} (g : world -> A) (k : A -> M B) w :
  bind (gets g) k w = k (g w) w.
Proof. reflexivity. Qed.

Lemma bind_emit {B : Type} ev (k : unit -> M B) w :
  bind (emit ev) k w = k tt (set_trace (trace w ++ [ev]) w).
Proof. reflexivity. Qed.





(** * Computations without a [return] *)

Lemma no_return_ret {A : Type} (a : A) : no_return (ret a).
Proof. intros w r w' H. discriminate H. Qed.

Lemma no_return_raise {A : Type} (e : exn) : no_return (@raise A e).
Proof. intros w r w' H. discriminate H. Qed.

Lemma no_return_gets {A : Type} (g : world -> A) : no_return (gets g).
Proof. intros w r w' H. discriminate H. Qed.

Lemma no_return_modify (g : world -> world) : no_return (modify g).
Proof. intros w r w' H. discriminate H. Qed.

Lemma no_return_emit ev : no_return (emit ev).
Proof. intros w r w' H. discriminate H. Qed.

Lemma no_return_of_option {A : Type} (o : option A) e : no_return (of_option o e).
Proof. destruct o; [apply no_return_ret | apply no_return_raise]. Qed.

Lemma no_return_bind {A B : Type} (m : M A) (k : A -> M B) :
  no_return m -> (forall a, no_return (k a)) -> no_return (bind m k).
Proof.
  intros Hm Hk w r w' H. apply bind_Return in H.
  destruct H as [H | (a & w1 & _ & H)]; [apply (Hm _ _ _ H) | apply (Hk _ _ _ _ H)].
Qed.

Ltac no_return_tac :=
  repeat first
    [ apply no_return_bind; [| intros ?]
    | apply no_return_ret | apply no_return_raise | apply no_return_gets
    | apply no_return_modify | apply no_return_emit | apply no_return_of_option
    | match goal with
      | |- no_return (if ?c then _ else _) => destruct c
      | |- no_return (match ?x with _ => _ end) => destruct x
      end
    | progress cbv zeta ].

Lemma epoch_end_no_return opt epochs epoch f :
  no_return (epoch_end opt epochs epoch f).
Proof.
  unfold epoch_end, write_results, format_g, tuple_get, as_float, as_str, torch_save.
  no_return_tac.
Qed.

Lemma run_test_no_return E : no_return (run_test E).
Proof. intros w r w' H. discriminate H. Qed.

(** * The NaN detector along the loops *)
















Lemma train_init_results resume transfer w start f w' :
  train_init resume transfer w = (Ok (start, f), w') -> results f = results0.
Proof.
  unfold train_init. intros H.
  mstep H as lr0 w1 Hs. mstep H as mo w2 Hs2. mstep H as wd w3 Hs3.
  cbv zeta in H. destruct resume.
  - mstep H as c w4 Hload. destruct (ck_optimizer c); unfold ret in H;
      inversion H; reflexivity.
  - unfold ret in H. inversion H. reflexivity.
Qed.

Lemma train_init_no_return resume transfer : no_return (train_init resume transfer).
Proof. unfold train_init, hyp_get, torch_load. no_return_tac. Qed.



(** The tuple returned on a NaN loss is the current [results], which need
    not be the best gathered. Here the first epoch is evaluated at mAP 0.9
    and test loss 1, the second at mAP 0.1 and test loss 5, and the loss is
    NaN in the third: [train] returns the second evaluation, which is the
    best neither by mAP nor by test loss. *)
Lemma nan_return_not_best_counterexample :
  let run := train env_nan_third_epoch (opt_plain 3) false 3 1 false world0 in
  fst run = Ok (metrics7 (1 # 10) (5 # 1)) /\
  In (EvLoss NaN) (trace (snd run)) /\
  ~ best_of_gathered (evaluations (trace (snd run))) (metrics7 (1 # 10) (5 # 1)).
Proof.
  cbv zeta.
  assert (Hev : evaluations (trace (snd (train env_nan_third_epoch (opt_plain 3)
                                           false 3 1 false world0)))
                = [metrics7 (9 # 10) (1 # 1); metrics7 (1 # 10) (5 # 1)])
    by (vm_compute; reflexivity).
  split; [vm_compute; reflexivity |]. split.
  - vm_compute. repeat (first [left; reflexivity | right]).
  - rewrite Hev. intros [H | H];
      specialize (H (metrics7 (9 # 10) (1 # 1)) (or_introl eq_refl));
      vm_compute in H; discriminate H.
Qed.



(** * Epochs without an evaluation *)

Lemma keeps_results_txt_refl w : keeps_results_txt w w.
Proof. reflexivity. Qed.

Lemma keeps_results_txt_trans w1 w2 w3 :
  keeps_results_txt w1 w2 -> keeps_results_txt w2 w3 -> keeps_results_txt w1 w3.
Proof. unfold keeps_results_txt. congruence. Qed.

Ltac keeps_results_leaf :=
  first [ apply steps_modify; intros ?; reflexivity
        | match goal with
          | |- steps _ (emit _) => intros ? ? ? H; inversion H; reflexivity
          | |- steps _ (draw_batch _) => intros ? ? ? H; inversion H; reflexivity
          | |- steps _ (run_test _) => intros ? ? ? H; inversion H; reflexivity
          end ].

Lemma batch_body_keeps_results_txt E epochs accumulate epoch i f :
  steps keeps_results_txt (batch_body E epochs accumulate epoch i f).
Proof.
  unfold batch_body.
  steps_with keeps_results_txt_refl keeps_results_txt_trans keeps_results_leaf.
Qed.

Lemma train_init_keeps_results_txt resume transfer :
  steps keeps_results_txt (train_init resume transfer).
Proof.
  unfold train_init.
  steps_with keeps_results_txt_refl keeps_results_txt_trans keeps_results_leaf.
Qed.

Lemma batch_loop_results E epochs accumulate epoch l :
  forall f w f' w',
    for_each l (batch_body E epochs accumulate epoch) f w = (Ok f', w') ->
    results f' = results f.
Proof.
  induction l as [| i l IH]; intros f w f' w' H.
  - inversion H. reflexivity.
  - apply for_each_cons_Ok in H. destruct H as (f1 & w1 & Hb & Hrest).
    apply batch_body_Ok in Hb. cbv zeta in Hb.
    destruct Hb as (_ & _ & _ & _ & _ & Hr & _).
    rewrite (IH _ _ _ _ Hrest). exact Hr.
Qed.

(** With the initial [results = (0, 0, 0, 0, 0)] the write to results.txt
    raises before anything is written: NameError when [s] is unbound,
    IndexError at [results[5]] otherwise. *)
Lemma write_results_initial f w :
  results f = results0 ->
  write_results f w = (Raise (match s_str f with Some _ => IndexError
                                               | None => NameError end), w).
Proof.
  intros Hr. unfold write_results. rewrite Hr.
  destruct (s_str f); reflexivity.
Qed.

Lemma epoch_end_initial opt epochs epoch f w :
  results f = results0 ->
  exists e, epoch_end opt epochs epoch f w = (Raise e, w).
Proof.
  intros Hr. unfold epoch_end. unfold bind at 1.
  rewrite (write_results_initial f w Hr). eexists. reflexivity.
Qed.

(** An epoch entered with the initial results and whose evaluation is
    skipped never reaches its end and leaves results.txt as it was. *)
Lemma epoch_body_skipped E opt epochs accumulate epoch f w o w' :
  results f = results0 ->
  test_this_epoch opt epochs epoch = false ->
  epoch_body E opt epochs accumulate epoch f w = (o, w') ->
  results_txt w' = results_txt w /\ forall f', o <> Ok f'.
Proof.
  intros Hr Hskip H. unfold epoch_body in H. rewrite bind_emit in H. cbv zeta in H.
  rewrite Hskip in H. unfold bind at 1 in H.
  match type of H with
  | context [for_each ?l ?b ?f0 ?w0] =>
      destruct (for_each l b f0 w0) as [[f1 | r | e] w1] eqn:Hloop;
      pose proof (steps_for_each _ keeps_results_txt_refl keeps_results_txt_trans l b
                    (fun x g _ => batch_body_keeps_results_txt E epochs accumulate epoch x g)
                    _ _ _ _ Hloop) as Htxt
  end.
  - apply batch_loop_results in Hloop. simpl in Hloop.
    assert (Hr1 : results f1 = results0) by congruence.
    unfold bind at 1 in H. unfold ret at 1 in H.
    destruct (epoch_end_initial opt epochs epoch f1 w1 Hr1) as [e He].
    rewrite He in H. inversion H; subst. split; [exact Htxt | discriminate].
  - inversion H; subst. split; [exact Htxt | discriminate].
  - inversion H; subst. split; [exact Htxt | discriminate].
Qed.

(** A fresh call of [train] whose first epoch is not evaluated (under
    [--notest] or [--nosave], unless there is a single epoch) appends
    nothing to results.txt, whatever the collaborators do. *)
Lemma train_skipped_logs_nothing E opt epochs accumulate transfer w o w' :
  test_this_epoch opt epochs 0 = false ->
  train E opt false epochs accumulate transfer w = (o, w') ->
  results_txt w' = results_txt w.
Proof.
  intros Hskip H. unfold train, call in H. rewrite bind_gets, bind_emit in H.
  unfold bind at 1 in H.
  match type of H with
  | context [train_init false transfer ?w0] =>
      destruct (train_init false transfer w0) as [[[start f] | r | e] w1] eqn:Hinit;
      pose proof (train_init_keeps_results_txt _ _ _ _ _ Hinit) as Htxt
  end; unfold keeps_results_txt in Htxt; simpl in Htxt.
  - pose proof (train_init_results _ _ _ _ _ _ Hinit) as Hres.
    assert (Hstart : start = 0).
    { unfold train_init in Hinit.
      mstep Hinit as lr0 w2 Hs. mstep Hinit as mo w3 Hs2. mstep Hinit as wd w4 Hs3.
      cbv zeta in Hinit. unfold ret in Hinit. inversion Hinit. reflexivity. }
    subst start. unfold bind at 1 in H. unfold py_range in H.
    destruct (Z.to_nat (epochs - 0)) as [| n] eqn:Hn.
    + simpl in H. unfold ret at 1 in H.
      assert (Hlt : (0 <? epochs) = false) by (apply Z.ltb_ge; lia).
      rewrite Hlt in H. cbv beta iota delta [bind raise] in H.
      inversion H; subst. exact Htxt.
    + simpl seq in H. simpl map in H. simpl for_each in H. unfold bind at 1 in H.
      destruct (epoch_body E opt epochs accumulate 0 f w1)
        as [[f1 | r | e] w2] eqn:Hep;
        destruct (epoch_body_skipped _ _ _ _ _ _ _ _ _ Hres Hskip Hep) as [Ht Hno].
      * exfalso. apply (Hno f1). reflexivity.
      * inversion H; subst. congruence.
      * inversion H; subst. congruence.
  - inversion H; subst. exact Htxt.
  - inversion H; subst. exact Htxt.
Qed.

(** [train] with [--notest], two epochs, two batches per epoch and finite
    losses: epoch 0 completes its batch loop (the summary of its last
    batch is the last thing printed), its evaluation is skipped, and the
    write to results.txt raises IndexError at [results[5]] on the initial
    five-element tuple: no line is appended. *)
Theorem skipped_evaluation_epoch_raises :
  let run := train env_finite (notest_options 2) false 2 1 false world0 in
  test_this_epoch (notest_options 2) 2 0 = false /\
  fst run = Raise IndexError /\
  results_txt (snd run) = [] /\
  exists sm, last (trace (snd run)) EvForward = EvPrintBatch sm /\
             sm_epoch sm = 0 /\ Z.of_nat (sm_batch sm) = sm_last_batch sm.
Proof.
  cbv zeta. split; [reflexivity |]. split; [vm_compute; reflexivity |].
  split; [vm_compute; reflexivity |].
  eexists. split; [vm_compute; reflexivity |]. split; reflexivity.
Qed.

(** * Runs that cannot finish their first epoch *)

Lemma untouched_refl w : untouched w w.
Proof. split; reflexivity. Qed.

Lemma untouched_trans w1 w2 w3 : untouched w1 w2 -> untouched w2 w3 -> untouched w1 w3.
Proof. intros [H1 H2] [H3 H4]. split; congruence. Qed.

Ltac untouched_leaf :=
  first [ apply steps_modify; intros ?; split; reflexivity
        | match goal with
          | |- steps _ (emit _) => intros ? ? ? H; inversion H; split; reflexivity
          | |- steps _ (draw_batch _) => intros ? ? ? H; inversion H; split; reflexivity
          | |- steps _ (run_test _) => intros ? ? ? H; inversion H; split; reflexivity
          end ].

Lemma batch_body_untouched E epochs accumulate epoch i f :
  steps untouched (batch_body E epochs accumulate epoch i f).
Proof.
  unfold batch_body. steps_with untouched_refl untouched_trans untouched_leaf.
Qed.

Lemma train_init_untouched resume transfer :
  steps untouched (train_init resume transfer).
Proof.
  unfold train_init. steps_with untouched_refl untouched_trans untouched_leaf.
Qed.

Lemma batch_loop_Return E epochs accumulate epoch l :
  forall f w r w',
    for_each l (batch_body E epochs accumulate epoch) f w = (Return r, w') ->
    r = results f.
Proof.
  induction l as [| i l IH]; intros f w r w' H.
  - discriminate H.
  - simpl in H. apply bind_Return in H. destruct H as [H | (f1 & w1 & Hb & Hrest)].
    + apply batch_body_Return in H. destruct H as (_ & Hr & _). exact Hr.
    + apply batch_body_Ok in Hb. cbv zeta in Hb.
      destruct Hb as (_ & _ & _ & _ & _ & Hr & _).
      rewrite (IH _ _ _ _ Hrest). exact Hr.
Qed.

Lemma epoch_body_unevaluated E opt epochs accumulate epoch f w o w' :
  results f = results0 ->
  test_this_epoch opt epochs epoch = false ->
  epoch_body E opt epochs accumulate epoch f w = (o, w') ->
  untouched w w' /\
  match o with
  | Ok _ => False
  | Return r => r = results0
  | Raise _ => True
  end.
Proof.
  intros Hr Hskip H. unfold epoch_body in H. rewrite bind_emit in H. cbv zeta in H.
  rewrite Hskip in H. unfold bind at 1 in H.
  match type of H with
  | context [for_each ?l ?b ?f0 ?w0] =>
      destruct (for_each l b f0 w0) as [[f1 | r | e] w1] eqn:Hloop;
      pose proof (steps_for_each _ untouched_refl untouched_trans l b
                    (fun x g _ => batch_body_untouched E epochs accumulate epoch x g)
                    _ _ _ _ Hloop) as Hun
  end.
  - apply batch_loop_results in Hloop. simpl in Hloop.
    assert (Hr1 : results f1 = results0) by congruence.
    unfold bind at 1 in H. unfold ret at 1 in H.
    destruct (epoch_end_initial opt epochs epoch f1 w1 Hr1) as [e He].
    rewrite He in H. inversion H; subst. split; [exact Hun | exact I].
  - apply batch_loop_Return in Hloop. simpl in Hloop.
    inversion H; subst. split; [exact Hun | congruence].
  - inversion H; subst. split; [exact Hun | exact I].
Qed.

Lemma train_init_fresh transfer w start f w' :
  train_init false transfer w = (Ok (start, f), w') -> start = 0.
Proof.
  unfold train_init. intros H.
  mstep H as lr0 w2 Hs. mstep H as mo w3 Hs2. mstep H as wd w4 Hs3.
  cbv zeta in H. unfold ret in H. inversion H. reflexivity.
Qed.

Lemma epoch_loop_unevaluated E opt epochs accumulate start f w o w' :
  results f = results0 ->
  test_this_epoch opt epochs start = false ->
  for_each (py_range start epochs) (epoch_body E opt epochs accumulate) f w = (o, w') ->
  untouched w w' /\
  match o with
  | Ok f' => epochs <= start /\ f' = f
  | Return r => r = results0
  | Raise _ => True
  end.
Proof.
  intros Hr Hskip H. unfold py_range in H.
  destruct (Z.to_nat (epochs - start)) as [| n] eqn:Hn.
  - simpl in H. inversion H; subst. split; [apply untouched_refl |].
    split; [lia | reflexivity].
  - simpl seq in H. simpl map in H. simpl for_each in H.
    replace (start + 0) with start in H by lia.
    unfold bind at 1 in H.
    destruct (epoch_body E opt epochs accumulate start f w) as [[f1 | r | e] w1] eqn:Hep;
      destruct (epoch_body_unevaluated _ _ _ _ _ _ _ _ _ Hr Hskip Hep) as [Hun Ho].
    + contradiction.
    + inversion H; subst. split; [exact Hun | reflexivity].
    + inversion H; subst. split; [exact Hun | exact I].
Qed.

Lemma train_unevaluated E opt epochs accumulate transfer w o w' :
  test_this_epoch opt epochs 0 = false ->
  train E opt false epochs accumulate transfer w = (o, w') ->
  untouched w w' /\ forall r, o = Ok r -> r = results0.
Proof.
  intros Hskip H. unfold train, call in H. rewrite bind_gets, bind_emit in H.
  unfold bind at 1 in H.
  match type of H with
  | context [train_init false transfer ?w0] =>
      destruct (train_init false transfer w0) as [[[start f] | r | e] w1] eqn:Hinit;
      pose proof (train_init_untouched _ _ _ _ _ Hinit) as Hun
  end; unfold untouched in Hun; simpl in Hun.
  - pose proof (train_init_results _ _ _ _ _ _ Hinit) as Hres.
    apply train_init_fresh in Hinit. subst start.
    unfold bind at 1 in H.
    destruct (for_each (py_range 0 epochs) (epoch_body E opt epochs accumulate) f w1)
      as [[f1 | r | e] w2] eqn:Hloop;
      destruct (epoch_loop_unevaluated _ _ _ _ _ _ _ _ _ Hres Hskip Hloop) as [Hun2 Ho].
    + destruct Ho as [Hle ->].
      assert (Hlt : (0 <? epochs) = false) by (apply Z.ltb_ge; lia).
      rewrite Hlt in H. cbv beta iota delta [bind raise] in H.
      inversion H; subst. split.
      * destruct Hun, Hun2. split; congruence.
      * intros r Hr. discriminate Hr.
    + inversion H; subst. split.
      * destruct Hun, Hun2. split; congruence.
      * intros r0 Hr0. inversion Hr0. reflexivity.
    + inversion H; subst. split.
      * destruct Hun, Hun2. split; congruence.
      * intros r0 Hr0. discriminate Hr0.
  - exfalso. apply (train_init_no_return _ _ _ _ _ Hinit).
  - inversion H; subst. split; [exact Hun |]. intros r0 Hr0. discriminate Hr0.
Qed.

(** X2. A fresh call of [train] (no resume) whose epoch 0 is not evaluated
    ([--notest], or [--nosave], with epoch 0 not the final epoch) cannot
    finish that epoch: the write to results.txt raises on the initial
    five-element [results]. Whatever the collaborators do, results.txt and
    the checkpoint files are left as they were, and if the call returns at
    all (on a NaN loss) it returns the initial (0, 0, 0, 0, 0). *)
Theorem train_unevaluated_first_epoch E opt epochs accumulate transfer w o w' :
  test_this_epoch opt epochs 0 = false ->
  train E opt false epochs accumulate transfer w = (o, w') ->
  results_txt w' = results_txt w /\ files w' = files w /\
  forall r, o = Ok r -> r = results0.
Proof.
  intros Hskip H. destruct (train_unevaluated _ _ _ _ _ _ _ _ Hskip H) as [[H1 H2] H3].
  auto.
Qed.

(** [--notest] with two epochs: the run raises IndexError and writes
    nothing. *)
Lemma train_unevaluated_first_epoch_witness :
  let run := train env_finite (notest_options 2) false 2 1 false world0 in
  test_this_epoch (notest_options 2) 2 0 = false /\
  fst run = Raise IndexError /\
  results_txt (snd run) = results_txt world0 /\ files (snd run) = files world0.
Proof.
  cbv zeta.
  set (run := train env_finite (notest_options 2) false 2 1 false world0).
  destruct (train_unevaluated_first_epoch env_finite (notest_options 2) 2 1 false
              world0 (fst run) (snd run) eq_refl (surjective_pairing run))
    as (Htxt & Hfiles & _).
  split; [reflexivity |]. split; [vm_compute; reflexivity |].
  split; [exact Htxt | exact Hfiles].
Defined.

(** * What [train] returns, and [print_mutation] *)

Lemma all_floats_str (r : pytuple) :
  forall n x, nth_error r n = Some (VStr x) -> all_floats r = None.
Proof.
  induction r as [| v r IH]; intros n x H.
  - destruct n; discriminate H.
  - destruct n as [| n]; simpl in H.
    + inversion H; subst. reflexivity.
    + simpl. destruct v; [| reflexivity]. rewrite (IH _ _ H). reflexivity.
Qed.

Lemma print_mutation_str h r w :
  has_str5 r -> print_mutation h r w = (Raise TypeError, w).
Proof.
  intros [x Hx]. unfold print_mutation, format_g. rewrite Nat.eqb_refl.
  rewrite (all_floats_str _ _ _ Hx). reflexivity.
Qed.

Lemma print_mutation_floats h r c w :
  all_floats r = Some c ->
  print_mutation h r w =
  (Ok tt, with_evolve_line {| el_results := c; el_hyp := values h |} w).
Proof.
  intros Hc. unfold print_mutation, format_g. rewrite Nat.eqb_refl, Hc.
  reflexivity.
Qed.

Lemma epoch_body_shape E opt epochs accumulate epoch f w o w' :
  results f = results0 \/ has_str5 (results f) ->
  epoch_body E opt epochs accumulate epoch f w = (o, w') ->
  match o with
  | Ok f' => has_str5 (results f')
  | Return r => r = results0 \/ has_str5 r
  | Raise _ => True
  end.
Proof.
  intros Hinv H. unfold epoch_body in H. rewrite bind_emit in H. cbv zeta in H.
  unfold bind at 1 in H.
  match type of H with
  | context [for_each ?l ?b ?f0 ?w0] =>
      destruct (for_each l b f0 w0) as [[f1 | r | e] w1] eqn:Hloop
  end.
  - clear Hloop Hinv. unfold bind at 1 in H.
    match type of H with
    | context [(if ?c then ?a else ?b) w1] =>
        destruct ((if c then a else b) w1) as [[f2 | r | e] w2] eqn:Htest
    end.
    + destruct o as [f' | r | e]; [| | exact I].
      * apply epoch_end_Ok in H.
        destruct H as (sm & metrics & extra & bm & tl & _ & _ & H5 & _ & _ & _ & _
                       & _ & Hr & _).
        exists extra. rewrite Hr. exact H5.
      * exfalso. apply (epoch_end_no_return _ _ _ _ _ _ _ H).
    + exfalso. destruct (test_this_epoch opt epochs epoch).
      * cbv beta iota delta [bind run_test ret] in Htest. discriminate Htest.
      * discriminate Htest.
    + inversion H; subst. exact I.
  - apply batch_loop_Return in Hloop. simpl in Hloop.
    inversion H; subst. exact Hinv.
  - inversion H; subst. exact I.
Qed.

Lemma epoch_loop_shape E opt epochs accumulate l :
  forall f w o w',
    results f = results0 \/ has_str5 (results f) ->
    for_each l (epoch_body E opt epochs accumulate) f w = (o, w') ->
    match o with
    | Ok f' => results f' = results0 \/ has_str5 (results f')
    | Return r => r = results0 \/ has_str5 r
    | Raise _ => True
    end.
Proof.
  induction l as [| e l IH]; intros f w o w' Hinv H.
  - inversion H; subst. exact Hinv.
  - simpl in H. unfold bind in H.
    destruct (epoch_body E opt epochs accumulate e f w) as [[f1 | r | x] w1] eqn:Hep;
      pose proof (epoch_body_shape _ _ _ _ _ _ _ _ _ Hinv Hep) as Hs.
    + apply (IH _ _ _ _ (or_intror Hs) H).
    + inversion H; subst. exact Hs.
    + inversion H; subst. exact I.
Qed.

Lemma train_result_shape E opt resume epochs accumulate transfer w r w' :
  train E opt resume epochs accumulate transfer w = (Ok r, w') ->
  r = results0 \/ has_str5 r.
Proof.
  intros H. unfold train, call in H. rewrite bind_gets, bind_emit in H.
  unfold bind at 1 in H.
  match type of H with
  | context [train_init resume transfer ?w0] =>
      destruct (train_init resume transfer w0) as [[[start f] | r0 | e] w1] eqn:Hinit
  end.
  - pose proof (train_init_results _ _ _ _ _ _ Hinit) as Hres.
    unfold bind at 1 in H.
    destruct (for_each (py_range start epochs) (epoch_body E opt epochs accumulate) f w1)
      as [[f1 | r1 | e] w2] eqn:Hloop;
      pose proof (epoch_loop_shape _ _ _ _ _ _ _ _ _ (or_introl Hres) Hloop) as Hs.
    + destruct (start <? epochs); cbv beta iota delta [bind emit modify raise ret] in H.
      * inversion H; subst. exact Hs.
      * discriminate H.
    + inversion H; subst. exact Hs.
    + discriminate H.
  - exfalso. apply (train_init_no_return _ _ _ _ _ Hinit).
  - discriminate H.
Qed.

(** X3. Whatever [train] returns, it is either the initial (0, 0, 0, 0, 0)
    (the call was cut short by a NaN loss before its first epoch ended),
    on which [print_mutation] appends one line of five numbers and the
    hyperparameter values to evolve.txt, or a tuple with a str at index 5
    (the write to results.txt needs one), on which [print_mutation] raises
    TypeError at its [%g] formatting and writes nothing. *)
Theorem print_mutation_on_train_result E opt resume epochs accumulate transfer
    w r w' :
  train E opt resume epochs accumulate transfer w = (Ok r, w') ->
  (r = results0 /\
   forall h w2,
     print_mutation h r w2 =
     (Ok tt, with_evolve_line
               {| el_results := [Fin 0; Fin 0; Fin 0; Fin 0; Fin 0];
                  el_hyp := values h |} w2)) \/
  (has_str5 r /\ forall h w2, print_mutation h r w2 = (Raise TypeError, w2)).
Proof.
  intros H. apply train_result_shape in H. destruct H as [-> | Hs].
  - left. split; [reflexivity |]. intros h w2.
    apply print_mutation_floats. reflexivity.
  - right. split; [exact Hs |]. intros h w2. apply print_mutation_str. exact Hs.
Qed.

(** A single-epoch run returns what [test.test] gave, and
    [print_mutation] raises on it. *)
Lemma print_mutation_on_train_result_witness :
  let run := train env_finite (opt_plain 1) false 1 1 false world0 in
  fst run = Ok (metrics7 (9 # 10) (1 # 1)) /\
  print_mutation hyp0 (metrics7 (9 # 10) (1 # 1)) (snd run) = (Raise TypeError, snd run).
Proof.
  cbv zeta.
  set (run := train env_finite (opt_plain 1) false 1 1 false world0).
  assert (Hfst : fst run = Ok (metrics7 (9 # 10) (1 # 1))) by (vm_compute; reflexivity).
  split; [exact Hfst |].
  assert (Hrun : train env_finite (opt_plain 1) false 1 1 false world0
                 = (Ok (metrics7 (9 # 10) (1 # 1)), snd run)).
  { rewrite <- Hfst. apply surjective_pairing. }
  destruct (print_mutation_on_train_result _ _ _ _ _ _ _ _ _ Hrun)
    as [[Heq _] | [_ Hraise]].
  - discriminate Heq.
  - apply Hraise.
Defined.

(** * Dicts *)

Lemma dict_get_set_same d k v : dict_get (dict_set d k v) k = Some v.
Proof.
  induction d as [| [k' v'] d IH]; simpl.
  - rewrite String.eqb_refl. reflexivity.
  - destruct (String.eqb k' k) eqn:Hk; simpl; rewrite Hk; [reflexivity | exact IH].
Qed.

Lemma dict_get_set_other d k v k' :
  k <> k' -> dict_get (dict_set d k v) k' = dict_get d k'.
Proof.
  intros Hne. induction d as [| [k0 v0] d IH]; simpl.
  - destruct (String.eqb k k') eqn:Hk; [apply String.eqb_eq in Hk; contradiction |].
    reflexivity.
  - destruct (String.eqb k0 k) eqn:Hk; simpl.
    + apply String.eqb_eq in Hk. subst k0.
      destruct (String.eqb k k') eqn:Hk'; [apply String.eqb_eq in Hk'; contradiction |].
      reflexivity.
    + destruct (String.eqb k0 k'); [reflexivity | exact IH].
Qed.

Lemma keys_set_present d k v x :
  dict_get d k = Some x -> keys (dict_set d k v) = keys d.
Proof.
  unfold keys. induction d as [| [k0 v0] d IH]; simpl; intros H.
  - discriminate H.
  - destruct (String.eqb k0 k) eqn:Hk; simpl; [reflexivity |].
    f_equal. apply IH. exact H.
Qed.

(** * Clipping *)

Lemma Qle_bool_refl (a : Q) : Qle_bool a a = true.
Proof. apply Qle_bool_iff. apply Qle_refl. Qed.

Lemma np_clip_nan lo hi : np_clip NaN lo hi = NaN.
Proof. reflexivity. Qed.

Lemma np_clip_within (x : pyfloat) (lo hi : Q) :
  (lo <= hi)%Q -> isnan x = false ->
  exists v, np_clip x (Fin lo) (Fin hi) = Fin v /\ (lo <= v <= hi)%Q.
Proof.
  intros Hle Hx. unfold np_clip, np_maximum, np_minimum.
  destruct x as [q | | |]; simpl in *; try discriminate Hx.
  - destruct (Qltb q lo) eqn:H1; simpl.
    + destruct (Qltb hi lo) eqn:H2.
      * apply Qltb_lt in H2. exfalso. apply (Qlt_not_le _ _ H2 Hle).
      * exists lo. split; [reflexivity |]. split; [apply Qle_refl | exact Hle].
    + apply Qltb_ge in H1. destruct (Qltb hi q) eqn:H2.
      * exists hi. split; [reflexivity |]. split; [exact Hle | apply Qle_refl].
      * apply Qltb_ge in H2. exists q. split; [reflexivity |]. split; assumption.
  - exists hi. split; [reflexivity |]. split; [exact Hle | apply Qle_refl].
  - destruct (Qltb hi lo) eqn:H2.
    + apply Qltb_lt in H2. exfalso. apply (Qlt_not_le _ _ H2 Hle).
    + exists lo. split; [reflexivity |]. split; [apply Qle_refl | exact Hle].
Qed.

Lemma clip_key_Ok k lo hi w u w' :
  clip_key (k, (lo, hi)) tt w = (Ok u, w') ->
  exists x, dict_get (hyp w) k = Some x /\
            w' = set_hyp (dict_set (hyp w) k (np_clip x (Fin lo) (Fin hi))) w.
Proof.
  unfold clip_key, hyp_get. intros H.
  cbv beta iota delta [bind gets of_option ret raise modify] in H.
  destruct (dict_get (hyp w) k) as [x |] eqn:Hx; [| discriminate H].
  exists x. split; [reflexivity |]. inversion H. reflexivity.
Qed.

Lemma clip_Ok w u w' :
  clip w = (Ok u, w') ->
  exists x1 x2 x3,
    dict_get (hyp w) "iou_t" = Some x1 /\
    dict_get (hyp w) "momentum" = Some x2 /\
    dict_get (hyp w) "weight_decay" = Some x3 /\
    w' = set_hyp
           (dict_set
              (dict_set
                 (dict_set (hyp w) "iou_t" (np_clip x1 (Fin (0 # 1)) (Fin (9 # 10))))
                 "momentum" (np_clip x2 (Fin (75 # 100)) (Fin (95 # 100))))
              "weight_decay" (np_clip x3 (Fin (0 # 1)) (Fin (1 # 100)))) w.
Proof.
  unfold clip. simpl combine. simpl for_each. intros H.
  mstep H as u1 w1 H1. apply clip_key_Ok in H1. destruct H1 as (x1 & Hx1 & ->).
  mstep H as u2 w2 H2. apply clip_key_Ok in H2. destruct H2 as (x2 & Hx2 & ->).
  mstep H as u3 w3 H3. apply clip_key_Ok in H3. destruct H3 as (x3 & Hx3 & ->).
  unfold ret in H. inversion H; subst. simpl in *.
  rewrite dict_get_set_other in Hx2 by discriminate.
  rewrite !dict_get_set_other in Hx3 by discriminate.
  exists x1, x2, x3. repeat split; assumption.
Qed.

(** X4. When the clipping step of the evolution loop succeeds, each of
    [iou_t], [momentum] and [weight_decay] that held a number (also an
    infinity) now holds a number within its limits; a NaN (which the
    mutation gives for a negative base of [** 1.1]) stays NaN; every other
    key keeps its value, and the keys and their order are unchanged. *)
Theorem clip_within_limits_or_nan w u w' :
  clip w = (Ok u, w') ->
  (forall k lo hi,
     In (k, (lo, hi)) (combine clip_keys clip_limits) ->
     exists x,
       dict_get (hyp w) k = Some x /\
       (isnan x = true -> dict_get (hyp w') k = Some NaN) /\
       (isnan x = false ->
        exists v, dict_get (hyp w') k = Some (Fin v) /\ (lo <= v <= hi)%Q)) /\
  (forall k, ~ In k clip_keys -> dict_get (hyp w') k = dict_get (hyp w) k) /\
  keys (hyp w') = keys (hyp w).
Proof.
  intros H. apply clip_Ok in H.
  destruct H as (x1 & x2 & x3 & H1 & H2 & H3 & ->). simpl hyp.
  split; [| split].
  - intros k lo hi Hin. simpl in Hin.
    destruct Hin as [Hin | [Hin | [Hin | []]]]; inversion Hin; subst; clear Hin.
    + exists x1. split; [exact H1 |].
      rewrite !dict_get_set_other by discriminate. rewrite dict_get_set_same. split.
      * intros Hn. destruct x1; try discriminate Hn. reflexivity.
      * intros Hn. destruct (np_clip_within x1 (0 # 1) (9 # 10)) as (v & Hv & Hb);
          [discriminate | exact Hn |]. exists v. rewrite Hv. split; [reflexivity | exact Hb].
    + exists x2. split; [exact H2 |].
      rewrite dict_get_set_other by discriminate. rewrite dict_get_set_same. split.
      * intros Hn. destruct x2; try discriminate Hn. reflexivity.
      * intros Hn. destruct (np_clip_within x2 (75 # 100) (95 # 100)) as (v & Hv & Hb);
          [discriminate | exact Hn |]. exists v. rewrite Hv. split; [reflexivity | exact Hb].
    + exists x3. split; [exact H3 |].
      rewrite dict_get_set_same. split.
      * intros Hn. destruct x3; try discriminate Hn. reflexivity.
      * intros Hn. destruct (np_clip_within x3 (0 # 1) (1 # 100)) as (v & Hv & Hb);
          [discriminate | exact Hn |]. exists v. rewrite Hv. split; [reflexivity | exact Hb].
  - intros k Hk. simpl in Hk.
    rewrite !dict_get_set_other; [reflexivity | | |]; intros Heq; apply Hk; auto.
  - rewrite (keys_set_present _ "weight_decay" _ x3).
    + rewrite (keys_set_present _ "momentum" _ x2).
      * apply (keys_set_present _ "iou_t" _ x1). exact H1.
      * rewrite dict_get_set_other by discriminate. exact H2.
    + rewrite !dict_get_set_other by discriminate. exact H3.
Qed.

(** [iou_t] was NaN and stays NaN; [momentum] was 2 and is brought within
    [0.75, 0.95]. *)
Lemma clip_within_limits_or_nan_witness :
  exists w',
    clip world_mutated = (Ok tt, w') /\
    dict_get (hyp w') "iou_t" = Some NaN /\
    exists v, dict_get (hyp w') "momentum" = Some (Fin v) /\
              (75 # 100 <= v <= 95 # 100)%Q.
Proof.
  destruct (clip world_mutated) as [o w'] eqn:Hrun.
  assert (Ho : o = Ok tt) by (vm_compute in Hrun; inversion Hrun; reflexivity).
  subst o. exists w'. split; [reflexivity |].
  destruct (clip_within_limits_or_nan _ _ _ Hrun) as (Hclip & _ & _).
  split.
  - destruct (Hclip "iou_t" (0 # 1) (9 # 10)) as (x & Hx & Hnan & _);
      [left; reflexivity |].
    vm_compute in Hx. inversion Hx; subst x. apply Hnan. reflexivity.
  - destruct (Hclip "momentum" (75 # 100) (95 # 100)) as (x & Hx & _ & Hnum);
      [right; left; reflexivity |].
    vm_compute in Hx. inversion Hx; subst x. apply Hnum. reflexivity.
Defined.
